(** * Session registry of [server.py]: model and verified properties

    The server keeps two module-level dictionaries, [clients] and
    [streaming_clients], and an upload folder.  Every request handler is
    embedded as a function from the request and the current state to a
    response and the next state.  The two sources of non-determinism of the
    handlers, the clock ([time.time()]) and the token generator
    ([str(uuid.uuid4())[:8]]), are explicit arguments.  Clock readings are
    integers, in seconds; each reading of the clock is an argument of its own.

    Python dictionaries keep insertion order, and [admin_response] and
    [admin_list] iterate over [clients] in that order, so dictionaries are
    association lists with the update discipline of [dict]. *)

From Stdlib Require Import List String Ascii Strings.Byte ZArith Lia Bool DecimalString.
Import ListNotations.

Open Scope string_scope.
Open Scope list_scope.
Open Scope Z_scope.

(** ** Insertion-ordered dictionaries *)

Module PyDict.

Section Ops.
Context {V : Type}.

Definition t := list (string * V).

(** [d.get(k)] *)
Fixpoint get (k : string) (d : t) : option V :=
  match d with
  | [] => None
  | (k', v) :: d' => if String.eqb k k' then Some v else get k d'
  end.

(** [k in d] *)
Definition mem (k : string) (d : t) : bool :=
  match get k d with Some _ => true | None => false end.

(** [d[k] = v]: an existing key keeps its position, a new one goes last. *)
Fixpoint set (k : string) (v : V) (d : t) : t :=
  match d with
  | [] => [(k, v)]
  | (k', v') :: d' =>
      if String.eqb k k' then (k', v) :: d' else (k', v') :: set k v d'
  end.

(** [del d[k]] (every call site guards it with [k in d]). *)
Fixpoint del (k : string) (d : t) : t :=
  match d with
  | [] => []
  | (k', v') :: d' =>
      if String.eqb k k' then del k d' else (k', v') :: del k d'
  end.

Definition keys (d : t) : list string := map fst d.

(** Keys of a dictionary are pairwise distinct. *)
Definition wf (d : t) : Prop := NoDup (keys d).
End Ops.

Arguments t : clear implicits.

End PyDict.

(** ** Request data *)

(** A JSON value as the handlers inspect it: [None] (a missing or null
    field) or a string. *)
Inductive value := VNone | VStr (s : string).

(** Python truthiness: [None] and the empty string are false. *)
Definition truthy (v : value) : bool :=
  match v with
  | VNone => false
  | VStr s => negb (String.eqb s "")
  end.

Definition value_eqb (a b : value) : bool :=
  match a, b with
  | VNone, VNone => true
  | VStr x, VStr y => String.eqb x y
  | _, _ => false
  end.

(** The request body, [request.json or {}]. *)
Definition json := PyDict.t value.

(** [data.get(k)] *)
Definition jget (k : string) (data : json) : value :=
  match PyDict.get k data with Some v => v | None => VNone end.

(** [data.get(k, dflt)] *)
Definition jget_default (k : string) (dflt : value) (data : json) : value :=
  match PyDict.get k data with Some v => v | None => dflt end.

(** A multipart form, [request.form]: its fields are strings. *)
Definition form := PyDict.t string.

(** [request.form.get(k)] *)
Definition fget (k : string) (f : form) : value :=
  match PyDict.get k f with Some v => VStr v | None => VNone end.

Definition bytes := list byte.

(** ** Server state *)

(** An entry of a command queue: [{"id", "type", "params"}]. *)
Record command := mkCommand {
  cmd_id : string;
  cmd_type : value;
  cmd_params : value
}.

(** An entry of a chat log: [{"sender", "message", "timestamp"}]. *)
Record chat_msg := mkChat {
  sender : value;
  message : value;
  timestamp : Z
}.

(** A value of [clients].  The key ["chat"] is created by the first
    [chat_send], so it may be missing. *)
Record client := mkClient {
  ip : value;
  last_seen : Z;
  command_queue : list command;
  results : PyDict.t value;
  streaming : bool;
  chat : option (list chat_msg)
}.

(** A value of [streaming_clients]; both keys may be missing. *)
Record stream_entry := mkEntry {
  last_frame : option bytes;
  frame_time : option Z
}.

(** The module-level state, with the upload folder as a dictionary from
    file names to contents. *)
Record state := mkState {
  clients : PyDict.t client;
  streaming_clients : PyDict.t stream_entry;
  uploads : PyDict.t bytes
}.

Definition initial_state : state :=
  {| clients := []; streaming_clients := []; uploads := [] |}.

Definition with_clients (cl : PyDict.t client) (s : state) : state :=
  {| clients := cl; streaming_clients := streaming_clients s; uploads := uploads s |}.

Definition with_streaming_clients (sc : PyDict.t stream_entry) (s : state) : state :=
  {| clients := clients s; streaming_clients := sc; uploads := uploads s |}.

Definition with_uploads (u : PyDict.t bytes) (s : state) : state :=
  {| clients := clients s; streaming_clients := streaming_clients s; uploads := u |}.

Definition set_last_seen (t : Z) (c : client) : client :=
  {| ip := ip c; last_seen := t; command_queue := command_queue c;
     results := results c; streaming := streaming c; chat := chat c |}.

Definition set_command_queue (q : list command) (c : client) : client :=
  {| ip := ip c; last_seen := last_seen c; command_queue := q;
     results := results c; streaming := streaming c; chat := chat c |}.

Definition set_results (r : PyDict.t value) (c : client) : client :=
  {| ip := ip c; last_seen := last_seen c; command_queue := command_queue c;
     results := r; streaming := streaming c; chat := chat c |}.

Definition set_streaming (b : bool) (c : client) : client :=
  {| ip := ip c; last_seen := last_seen c; command_queue := command_queue c;
     results := results c; streaming := b; chat := chat c |}.

Definition set_chat (l : option (list chat_msg)) (c : client) : client :=
  {| ip := ip c; last_seen := last_seen c; command_queue := command_queue c;
     results := results c; streaming := streaming c; chat := l |}.

(** [clients[cid][...] = ...]: the session stored under [cid] is mutated in
    place.  Every call site has checked [cid in clients]; on a missing key
    Python raises [KeyError], which only [upload_file] can meet and handles
    itself. *)
Definition on_client (cid : string) (f : client -> client) (s : state) : state :=
  match PyDict.get cid (clients s) with
  | Some c => with_clients (PyDict.set cid (f c) (clients s)) s
  | None => s
  end.

(** The guard [not client_id or client_id not in clients] of the handlers:
    [None] when it holds, the key and its session otherwise. *)
Definition lookup_client (client_id : value) (cl : PyDict.t client)
  : option (string * client) :=
  match client_id with
  | VNone => None
  | VStr cid =>
      if String.eqb cid "" then None
      else match PyDict.get cid cl with
           | Some c => Some (cid, c)
           | None => None
           end
  end.

(** [client_id in clients] for a JSON value. *)
Definition in_clients (client_id : value) (cl : PyDict.t client) : bool :=
  match client_id with
  | VNone => false
  | VStr cid => PyDict.mem cid cl
  end.

(** ** Responses *)

Inductive response :=
| Registered (id : string)           (* {"id": id, "status": "registered"} *)
| Error (code : Z) (msg : string)    (* {"error": msg}, code *)
| CommandResp (cmd : option command) (* {"command": cmd} *)
| StatusOk                           (* {"status": "ok"} *)
| FrameReceived                      (* {"status": "frame_received"} *)
| Uploaded (filename : string)       (* {"status": "uploaded", "filename": ..} *)
| Sent                               (* {"status": "sent"} *)
| History (log : list chat_msg)
| ClientList (active : list (string * value * Z))
| Queued (id : string)               (* {"cmd_id": id, "status": "queued"} *)
| Done (output : value)              (* {"status": "done", "output": ..} *)
| Pending                            (* {"status": "pending"} *)
| Frame (data : bytes)               (* the JPEG body *)
| StreamStatus (b : bool)            (* {"streaming": b} *)
| FileBody (data : bytes).

(** ** Helpers *)

(** [now - data['last_seen'] > 60] *)
Definition is_dead (now : Z) (entry : string * client) : bool :=
  now - last_seen (snd entry) >? 60.

(** The body of the second loop of [clean_clients]. *)
Definition remove_dead (s : state) (d : string) : state :=
  let s1 := with_clients (PyDict.del d (clients s)) s in
  if PyDict.mem d (streaming_clients s1)
  then with_streaming_clients (PyDict.del d (streaming_clients s1)) s1
  else s1.

(** [clean_clients]: collect the keys of the sessions silent for more than
    60 seconds, then delete each of them from [clients] and, when present,
    from [streaming_clients]. *)
Definition clean_clients (now : Z) (s : state) : state :=
  let dead := map fst (filter (is_dead now) (clients s)) in
  fold_left remove_dead dead s.

(** ** Client endpoints *)

(** The session that [register] stores. *)
Definition new_client (public_ip : value) (now : Z) : client :=
  {| ip := public_ip; last_seen := now; command_queue := [];
     results := []; streaming := false; chat := None |}.

(** [/api/register].  [uuid8] is the token [str(uuid.uuid4())[:8]] drawn
    should the handler need one, [remote_addr] is [request.remote_addr]. *)
Definition register (now : Z) (uuid8 : string) (remote_addr : value)
    (data : json) (s : state) : response * state :=
  let public_ip := jget_default "public_ip" remote_addr data in
  let client_id :=
    match lookup_client (jget "id" data) (clients s) with
    | Some (cid, _) => cid
    | None => uuid8
    end in
  (Registered client_id,
   with_clients (PyDict.set client_id (new_client public_ip now) (clients s)) s).

(** [/api/poll] *)
Definition poll (now : Z) (data : json) (s : state) : response * state :=
  match lookup_client (jget "id" data) (clients s) with
  | None => (Error 404 "Unknown client, re-register", s)
  | Some (cid, c) =>
      let s1 := on_client cid (set_last_seen now) s in
      match command_queue c with
      | cmd :: rest => (CommandResp (Some cmd), on_client cid (set_command_queue rest) s1)
      | [] => (CommandResp None, s1)
      end
  end.

(** [/api/result] *)
Definition result (data : json) (s : state) : response * state :=
  let cmd := jget "cmd_id" data in
  let output := jget "output" data in
  match lookup_client (jget "id" data) (clients s) with
  | None => (Error 404 "Unknown client", s)
  | Some (cid, _) =>
      match cmd with
      | VStr k =>
          if truthy cmd
          then (StatusOk,
                on_client cid (fun c => set_results (PyDict.set k output (results c)) c) s)
          else (StatusOk, s)
      | VNone => (StatusOk, s)
      end
  end.

Definition string_of_Z (z : Z) : string := NilZero.string_of_int (Z.to_int z).

Definition empty_entry : stream_entry := {| last_frame := None; frame_time := None |}.

(** The guard of [upload_file],
    [client_id != 'ADMIN' and (not client_id or client_id not in clients)]. *)
Definition upload_rejected (f : form) (s : state) : bool :=
  negb (value_eqb (fget "id" f) (VStr "ADMIN"))
  && (negb (truthy (fget "id" f)) || negb (in_clients (fget "id" f) (clients s))).

(** The collaborators outside the repository, as the handlers meet them:
    [werkzeug.utils.secure_filename]; [file.save] on a path
    [uploads/<name>] with a non-empty name, [None] when the write succeeds
    and the text of the exception otherwise; the text of the exception
    [file.save] raises on the upload directory itself, and the one
    [send_file] raises on it. *)
Record platform := mkPlatform {
  secure_filename : string -> string;
  save_error : string -> option string;
  save_dir_error : string;
  send_dir_error : string
}.

(** [file.save(os.path.join(UPLOAD_FOLDER, filename))]: with an empty name
    the path is the upload directory, which cannot be written as a file. *)
Definition save_outcome (pf : platform) (filename : string) : option string :=
  if String.eqb filename "" then Some (save_dir_error pf)
  else save_error pf filename.

(** [/api/upload].  [file] is [request.files['file']] as a name and a
    content, [None] when the part is missing.  The body runs under
    [try/except]: a save that raises, and the [KeyError] of
    [clients['ADMIN']] after a save that succeeded, are answered with status
    500 and the text of the exception.  An absent id never passes the
    guard. *)
Definition upload_file (pf : platform) (now : Z) (f : form)
    (file : option (string * bytes)) (s : state) : response * state :=
  let cmd := fget "cmd_id" f in
  let is_stream_frame :=
    match PyDict.get "is_stream_frame" f with
    | Some v => String.eqb v "true"
    | None => false
    end in
  if upload_rejected f s then (Error 404 "Unknown client", s)
  else
    match fget "id" f, file with
    | VNone, _ => (Error 404 "Unknown client", s)
    | VStr _, None => (Error 400 "No file part", s)
    | VStr client_id, Some (name, file_data) =>
        if String.eqb name "" then (Error 400 "No selected file", s)
        else if is_stream_frame then
          let sc := streaming_clients s in
          let sc1 :=
            if negb (PyDict.mem client_id sc)
            then PyDict.set client_id empty_entry sc else sc in
          let e :=
            match PyDict.get client_id sc1 with
            | Some e => e
            | None => empty_entry
            end in
          let e1 := {| last_frame := Some file_data; frame_time := frame_time e |} in
          let e2 := {| last_frame := last_frame e1; frame_time := Some now |} in
          (FrameReceived, with_streaming_clients (PyDict.set client_id e2 sc1) s)
        else
          let filename :=
            secure_filename pf
              (client_id ++ "_" ++ string_of_Z now ++ "_" ++ name)%string in
          match save_outcome pf filename with
          | Some msg => (Error 500 msg, s)
          | None =>
              let s1 := with_uploads (PyDict.set filename file_data (uploads s)) s in
              match cmd with
              | VStr k =>
                  if truthy cmd then
                    match PyDict.get client_id (clients s1) with
                    | Some _ =>
                        (Uploaded filename,
                         on_client client_id
                           (fun c =>
                              set_results
                                (PyDict.set k
                                   (VStr ("FILE_UPLOADED:" ++ filename)%string)
                                   (results c)) c) s1)
                    | None => (Error 500 ("'" ++ client_id ++ "'")%string, s1)
                    end
                  else (Uploaded filename, s1)
              | VNone => (Uploaded filename, s1)
              end
          end
    end.

(** [/admin/download_file/<filename>].  When the sanitized name is empty the
    path is the upload directory: it exists, [send_file] raises on it and
    the handler answers 500. *)
Definition admin_download (pf : platform) (filename : string) (s : state)
  : response * state :=
  let safe_filename := secure_filename pf filename in
  if String.eqb safe_filename "" then (Error 500 (send_dir_error pf), s)
  else
    match PyDict.get safe_filename (uploads s) with
    | Some data => (FileBody data, s)
    | None => (Error 404 "File not found", s)
    end.

(** ** Chat endpoints *)

(** [clients[cid].get('chat', [])] *)
Definition chat_log (c : client) : list chat_msg :=
  match chat c with Some l => l | None => [] end.

(** The session id that [chat_send] reads: ['id'], else ['target_id']. *)
Definition chat_target (data : json) : value :=
  if truthy (jget "id" data) then jget "id" data else jget "target_id" data.

(** [/api/chat/send] *)
Definition chat_send (now : Z) (uuid8 : string) (data : json) (s : state)
  : response * state :=
  let client_id := chat_target data in
  let sender := jget "sender" data in
  let message := jget "message" data in
  match lookup_client client_id (clients s) with
  | None => (Error 404 "Unknown client", s)
  | Some (cid, _) =>
      let msg_obj := {| sender := sender; message := message; timestamp := now |} in
      let s1 :=
        on_client cid
          (fun c => match chat c with
                    | None => set_chat (Some []) c
                    | Some _ => c
                    end) s in
      let s2 := on_client cid (fun c => set_chat (Some (chat_log c ++ [msg_obj])) c) s1 in
      let s3 :=
        if value_eqb sender (VStr "admin") then
          on_client cid
            (fun c =>
               set_command_queue
                 (command_queue c
                    ++ [{| cmd_id := uuid8; cmd_type := VStr "chat_msg";
                           cmd_params := message |}]) c) s2
        else s2 in
      (Sent, s3)
  end.

(** [/api/chat/history/<client_id>] *)
Definition chat_history (client_id : string) (s : state) : response * state :=
  match PyDict.get client_id (clients s) with
  | Some c => (History (chat_log c), s)
  | None => (History [], s)
  end.

(** ** Admin endpoints *)

(** [/admin/list].  The sweep reads the clock once ([now]); the loop that
    builds the answer reads it again for every session it reports
    ([seen_at cid] for the session [cid]). *)
Definition admin_list (now : Z) (seen_at : string -> Z) (s : state)
  : response * state :=
  let s1 := clean_clients now s in
  (ClientList
     (map (fun entry : string * client =>
             (fst entry, ip (snd entry), seen_at (fst entry) - last_seen (snd entry)))
        (clients s1)),
   s1).

(** The command that [admin_command] builds from a request. *)
Definition command_of (uuid8 : string) (data : json) : command :=
  {| cmd_id := uuid8; cmd_type := jget "type" data;
     cmd_params := jget_default "params" (VStr "") data |}.

(** The [if cmd_type == 'start_stream': ... elif cmd_type == 'stop_stream':]
    block of [admin_command]. *)
Definition stream_side_effect (cid : string) (ty : value) (s : state) : state :=
  if value_eqb ty (VStr "start_stream") then
    let s' := on_client cid (set_streaming true) s in
    if negb (PyDict.mem cid (streaming_clients s'))
    then with_streaming_clients (PyDict.set cid empty_entry (streaming_clients s')) s'
    else s'
  else if value_eqb ty (VStr "stop_stream") then
    let s' := on_client cid (set_streaming false) s in
    if PyDict.mem cid (streaming_clients s')
    then with_streaming_clients (PyDict.del cid (streaming_clients s')) s'
    else s'
  else s.

(** [/admin/command] *)
Definition admin_command (uuid8 : string) (data : json) (s : state)
  : response * state :=
  let target_id := jget "target_id" data in
  let ty := jget "type" data in
  match lookup_client target_id (clients s) with
  | None => (Error 404 "Client not found", s)
  | Some (cid, _) =>
      let command := command_of uuid8 data in
      let s1 := stream_side_effect cid ty s in
      (Queued uuid8,
       on_client cid (fun c => set_command_queue (command_queue c ++ [command]) c) s1)
  end.

(** The loop of [admin_response]: the first session, in iteration order,
    whose results hold [cmd] gives its payload and loses the entry. *)
Fixpoint pop_result (cmd : string) (cl : PyDict.t client)
  : option (value * PyDict.t client) :=
  match cl with
  | [] => None
  | (cid, data) :: rest =>
      match PyDict.get cmd (results data) with
      | Some res =>
          Some (res, (cid, set_results (PyDict.del cmd (results data)) data) :: rest)
      | None =>
          match pop_result cmd rest with
          | Some (res, rest') => Some (res, (cid, data) :: rest')
          | None => None
          end
      end
  end.

(** [/admin/response/<cmd_id>] *)
Definition admin_response (cmd : string) (s : state) : response * state :=
  match pop_result cmd (clients s) with
  | Some (res, cl) => (Done res, with_clients cl s)
  | None => (Pending, s)
  end.

(** [/admin/stream_frame/<client_id>]; [if frame_data:] rejects both a
    missing frame and an empty one. *)
Definition admin_stream_frame (client_id : string) (s : state) : response * state :=
  match PyDict.get client_id (streaming_clients s) with
  | Some e =>
      match last_frame e with
      | Some (b :: frame_data) => (Frame (b :: frame_data), s)
      | _ => (Error 404 "No frame available", s)
      end
  | None => (Error 404 "No frame available", s)
  end.

(** [/admin/stream_status/<client_id>] *)
Definition admin_stream_status (client_id : string) (s : state) : response * state :=
  match PyDict.get client_id (clients s) with
  | Some c => (StreamStatus (streaming c), s)
  | None => (StreamStatus false, s)
  end.

(** ** Observations on a state *)

Definition session (cid : string) (s : state) : option client :=
  PyDict.get cid (clients s).

Definition heartbeat (cid : string) (s : state) : option Z :=
  option_map last_seen (session cid s).

Definition queue (cid : string) (s : state) : list command :=
  match session cid s with Some c => command_queue c | None => [] end.

Definition session_ids (s : state) : list string := PyDict.keys (clients s).

(** The invariant of a Python dictionary: no key occurs twice. *)
Definition wf_state (s : state) : Prop :=
  PyDict.wf (clients s) /\ PyDict.wf (streaming_clients s).

(** ** The server as a whole *)

(** Every request the server accepts, with the clock reading and the token
    its handler would draw. *)
Inductive request :=
| ReqRegister (now : Z) (uuid8 : string) (remote_addr : value) (data : json)
| ReqPoll (now : Z) (data : json)
| ReqResult (data : json)
| ReqUpload (now : Z) (f : form) (file : option (string * bytes))
| ReqChatSend (now : Z) (uuid8 : string) (data : json)
| ReqChatHistory (client_id : string)
| ReqAdminList (now : Z) (seen_at : string -> Z)
| ReqAdminCommand (uuid8 : string) (data : json)
| ReqAdminResponse (cmd : string)
| ReqAdminDownload (filename : string)
| ReqStreamFrame (client_id : string)
| ReqStreamStatus (client_id : string).

(** The routing table. *)
Definition handle (pf : platform) (r : request) (s : state) : response * state :=
  match r with
  | ReqRegister now uuid8 addr data => register now uuid8 addr data s
  | ReqPoll now data => poll now data s
  | ReqResult data => result data s
  | ReqUpload now f file => upload_file pf now f file s
  | ReqChatSend now uuid8 data => chat_send now uuid8 data s
  | ReqChatHistory cid => chat_history cid s
  | ReqAdminList now seen_at => admin_list now seen_at s
  | ReqAdminCommand uuid8 data => admin_command uuid8 data s
  | ReqAdminResponse cmd => admin_response cmd s
  | ReqAdminDownload filename => admin_download pf filename s
  | ReqStreamFrame cid => admin_stream_frame cid s
  | ReqStreamStatus cid => admin_stream_status cid s
  end.

(** Serves the requests in order. *)
Fixpoint serve (pf : platform) (rs : list request) (s : state)
  : list response * state :=
  match rs with
  | [] => ([], s)
  | r :: rs' =>
      let (out, s1) := handle pf r s in
      let (outs, s2) := serve pf rs' s1 in
      (out :: outs, s2)
  end.

(** ** Vocabulary of the statements *)

(** The traffic on one session's queue: the controller enqueues, the agent
    polls. *)
Inductive queue_op :=
| Enqueue (uuid8 : string) (data : json)
| Poll (now : Z) (data : json).

Definition step (op : queue_op) (s : state) : response * state :=
  match op with
  | Enqueue uuid8 data => admin_command uuid8 data s
  | Poll now data => poll now data s
  end.

(** Runs the requests in order and collects the responses. *)
Fixpoint run_ops (ops : list queue_op) (s : state) : list response * state :=
  match ops with
  | [] => ([], s)
  | op :: ops' =>
      let (r, s1) := step op s in
      let (rs, s2) := run_ops ops' s1 in
      (r :: rs, s2)
  end.

Definition addresses (cid : string) (op : queue_op) : Prop :=
  match op with
  | Enqueue _ data => jget "target_id" data = VStr cid
  | Poll _ data => jget "id" data = VStr cid
  end.

(** The queue as the specification words it: enqueue appends at the tail,
    dequeue removes and returns the head, or returns none when the queue is
    empty. *)
Fixpoint fifo_spec (ops : list queue_op) (q : list command)
  : list response * list command :=
  match ops with
  | [] => ([], q)
  | Enqueue uuid8 data :: ops' =>
      let (rs, q') := fifo_spec ops' (q ++ [command_of uuid8 data]) in
      (Queued uuid8 :: rs, q')
  | Poll _ _ :: ops' =>
      let (rs, q') := fifo_spec ops' (tl q) in
      (CommandResp (hd_error q) :: rs, q')
  end.

Definition enqueue_op (e : string * json) : queue_op := Enqueue (fst e) (snd e).
Definition poll_op (p : Z * json) : queue_op := Poll (fst p) (snd p).

(** No session other than [cid] holds a result under [cmd]. *)
Definition only_holder (cid cmd : string) (s : state) : Prop :=
  forall k c, k <> cid -> session k s = Some c -> PyDict.get cmd (results c) = None.

Definition listed (k : string) (l : list string) : bool := existsb (String.eqb k) l.

Definition dead_ids (now : Z) (s : state) : list string :=
  map fst (filter (is_dead now) (clients s)).

(** The ids of a listing. *)
Definition listed_ids (r : response) : list string :=
  match r with
  | ClientList active => map (fun e => fst (fst e)) active
  | _ => []
  end.

(** The state in which the session [cid] and its stream entry never existed. *)
Definition without_session (cid : string) (s : state) : state := remove_dead s cid.

(** What [admin_stream_frame] answers for a slot holding [data]. *)
Definition served (data : bytes) : response :=
  match data with
  | [] => Error 404 "No frame available"
  | _ :: _ => Frame data
  end.

(** ** Vocabulary of the further properties *)

(** A 4xx answer: the request was refused. *)
Definition refused (r : response) : bool :=
  match r with
  | Error code _ => (code =? 404) || (code =? 400)
  | _ => false
  end.

(** The requests whose handlers assign or delete keys of [clients]. *)
Definition structural (r : request) : bool :=
  match r with
  | ReqRegister _ _ _ _ | ReqAdminList _ _ => true
  | _ => false
  end.

(** The requests whose handlers write [last_seen]. *)
Definition refreshing (r : request) : bool :=
  match r with
  | ReqRegister _ _ _ _ | ReqPoll _ _ | ReqAdminList _ _ => true
  | _ => false
  end.

(** The session id a request names, for the handlers that index [clients]
    or [streaming_clients] with it. *)
Definition addressee (r : request) : option value :=
  match r with
  | ReqPoll _ data | ReqResult data => Some (jget "id" data)
  | ReqChatSend _ _ data => Some (chat_target data)
  | ReqAdminCommand _ data => Some (jget "target_id" data)
  | ReqUpload _ f _ => Some (fget "id" f)
  | _ => None
  end.

(** [cmd_id in data['results']] for the session [c]. *)
Definition holds (cmd : string) (c : client) : bool := PyDict.mem cmd (results c).

(** Every key of [streaming_clients] is the ["ADMIN"] sentinel or the id of
    a session. *)
Definition stream_entries_owned (s : state) : Prop :=
  forall k, PyDict.mem k (streaming_clients s) = true ->
            k = "ADMIN" \/ PyDict.mem k (clients s) = true.

(** The chat log of a session, empty when there is no such session. *)
Definition chat_of (cid : string) (s : state) : list chat_msg :=
  match session cid s with Some c => chat_log c | None => [] end.

(** The form of a regular upload and of a frame upload. *)
Definition is_frame_upload (f : form) : bool :=
  match PyDict.get "is_stream_frame" f with
  | Some v => String.eqb v "true"
  | None => false
  end.


(** The requests that write the upload folder. *)
Definition is_upload (r : request) : bool :=
  match r with
  | ReqUpload _ _ _ => true
  | _ => false
  end.

(** The requests that push a frame under the id [cid]. *)
Definition pushes_frame (cid : string) (r : request) : bool :=
  match r with
  | ReqUpload _ f _ => is_frame_upload f && value_eqb (fget "id" f) (VStr cid)
  | _ => false
  end.



(** Whether a non-empty frame is cached under [cid]. *)
Definition has_frame (cid : string) (s : state) : bool :=
  match PyDict.get cid (streaming_clients s) with
  | Some e =>
      match last_frame e with
      | Some (_ :: _) => true
      | _ => false
      end
  | None => false
  end.

(** ** Sample states *)

(** A platform whose sanitizer keeps the names it is given and whose saves
    succeed. *)
Definition plain : platform :=
  {| secure_filename := fun name => name;
     save_error := fun _ => None;
     save_dir_error := "[Errno 21] Is a directory: 'uploads/'";
     send_dir_error := "[Errno 21] Is a directory: 'uploads/'" |}.


(** A session last seen at time 0, with a pending command, a stored result,
    a chat entry, the streaming flag set and a cached frame. *)
Definition busy_client : client :=
  {| ip := VStr "10.0.0.7"; last_seen := 0;
     command_queue := [{| cmd_id := "c9d8e7f6"; cmd_type := VStr "shell";
                          cmd_params := VStr "whoami" |}];
     results := [("0badc0de", VStr "root")];
     streaming := true;
     chat := Some [{| sender := VStr "client"; message := VStr "hi"; timestamp := 0 |}] |}.

Definition busy_state : state :=
  {| clients := [("a1b2c3d4", busy_client)];
     streaming_clients :=
       [("a1b2c3d4", {| last_frame := Some ["x"%byte]; frame_time := Some 0 |})];
     uploads := [] |}.

Definition idle_client : client :=
  {| ip := VStr "10.0.0.7"; last_seen := 0; command_queue := [];
     results := []; streaming := false; chat := None |}.

Definition idle_state : state :=
  {| clients := [("a1b2c3d4", idle_client)]; streaming_clients := []; uploads := [] |}.

Definition two_clients : state :=
  {| clients := [("a1b2c3d4", idle_client); ("e5f6a7b8", idle_client)];
     streaming_clients := []; uploads := [] |}.

(** ** Facts on dictionaries *)

Section DictFacts.
Import PyDict.
Context {V : Type}.
Implicit Types (d : t V) (k : string) (v : V).

Lemma dict_get_set_eq k v d : get k (set k v d) = Some v.
Proof.
  induction d as [|[k' v'] d IH]; simpl.
  - now rewrite String.eqb_refl.
  - destruct (String.eqb k k') eqn:E; simpl; rewrite E; auto.
Qed.

Lemma dict_get_set_neq k k' v d : k' <> k -> get k' (set k v d) = get k' d.
Proof.
  intros Hne. induction d as [|[k0 v0] d IH]; simpl.
  - apply String.eqb_neq in Hne. now rewrite Hne.
  - destruct (String.eqb k k0) eqn:E; simpl.
    + apply String.eqb_eq in E. subst k0.
      apply String.eqb_neq in Hne. now rewrite Hne.
    + now rewrite IH.
Qed.

Lemma dict_get_del_eq k d : get k (del k d) = None.
Proof.
  induction d as [|[k' v'] d IH]; simpl; auto.
  destruct (String.eqb k k') eqn:E; simpl; auto. now rewrite E.
Qed.

Lemma dict_get_del_neq k k' d : k' <> k -> get k' (del k d) = get k' d.
Proof.
  intros Hne. induction d as [|[k0 v0] d IH]; simpl; auto.
  destruct (String.eqb k k0) eqn:E; simpl.
  - apply String.eqb_eq in E. subst k0.
    apply String.eqb_neq in Hne. now rewrite Hne.
  - now rewrite IH.
Qed.

Lemma dict_get_None_notin k d : get k d = None <-> ~ In k (keys d).
Proof.
  induction d as [|[k' v'] d IH]; simpl.
  - tauto.
  - destruct (String.eqb_spec k k') as [->|Hne].
    + split; [discriminate | intros H; exfalso; apply H; now left].
    + rewrite IH. split; [intros H [E|E]; [congruence | tauto] | tauto].
Qed.

Lemma dict_get_Some_in k v d : get k d = Some v -> In (k, v) d.
Proof.
  induction d as [|[k' v'] d IH]; simpl; [discriminate|].
  destruct (String.eqb_spec k k') as [->|Hne].
  - intros [= ->]. now left.
  - intros H. right. auto.
Qed.

Lemma dict_in_get_wf k v d : wf d -> In (k, v) d -> get k d = Some v.
Proof.
  unfold wf. induction d as [|[k' v'] d IH]; simpl; [tauto|].
  intros Hnd [E|Hin].
  - injection E as -> ->. now rewrite String.eqb_refl.
  - inversion Hnd as [|? ? Hni Hnd']; subst.
    destruct (String.eqb_spec k k') as [->|Hne].
    + exfalso. apply Hni. change k' with (fst (k', v)). now apply in_map.
    + auto.
Qed.

(** Overwriting a present key changes neither the keys nor their order. *)
Lemma dict_keys_set_present k v d : get k d <> None -> keys (set k v d) = keys d.
Proof.
  induction d as [|[k' v'] d IH]; simpl; [congruence|].
  destruct (String.eqb k k') eqn:E; simpl; [reflexivity|].
  intros H. now rewrite IH.
Qed.

(** Assigning an absent key appends exactly that key. *)
Lemma dict_keys_set_absent k v d : get k d = None -> keys (set k v d) = keys d ++ [k].
Proof.
  induction d as [|[k' v'] d IH]; simpl; [reflexivity|].
  destruct (String.eqb k k') eqn:E; simpl; [discriminate|].
  intros H. now rewrite IH.
Qed.

Lemma dict_keys_del k d : keys (del k d) = filter (fun k' => negb (String.eqb k k')) (keys d).
Proof.
  induction d as [|[k' v'] d IH]; simpl; auto.
  destruct (String.eqb k k'); simpl; now rewrite IH.
Qed.

Lemma dict_wf_set k v d : wf d -> wf (set k v d).
Proof.
  unfold wf. intros Hnd.
  destruct (get k d) eqn:G.
  - rewrite dict_keys_set_present; congruence.
  - rewrite dict_keys_set_absent by assumption.
    apply NoDup_app; [assumption | repeat constructor; simpl; tauto |].
    intros x Hin [<-|[]]. now apply dict_get_None_notin in G.
Qed.

Lemma dict_wf_del k d : wf d -> wf (del k d).
Proof. unfold wf. rewrite dict_keys_del. apply NoDup_filter. Qed.

Lemma dict_del_absent k d : get k d = None -> del k d = d.
Proof.
  induction d as [|[k' v'] d IH]; simpl; auto.
  destruct (String.eqb k k'); [discriminate|]. intros H. now rewrite IH.
Qed.
End DictFacts.

(** ** Basic facts on the guard and on in-place updates *)

Lemma lookup_client_Some v cl cid c :
  lookup_client v cl = Some (cid, c) <->
  v = VStr cid /\ cid <> "" /\ PyDict.get cid cl = Some c.
Proof.
  unfold lookup_client. destruct v as [|k].
  - split; [discriminate | intros [? _]; discriminate].
  - destruct (String.eqb_spec k "") as [->|Hne].
    + split; [discriminate | intros ([= <-] & H & _); now elim H].
    + destruct (PyDict.get k cl) eqn:G.
      * split.
        -- intros [= <- <-]. auto.
        -- intros ([= <-] & _ & H). congruence.
      * split; [discriminate | intros ([= <-] & _ & H); congruence].
Qed.

(** [lookup_client] fails exactly when the guard of the source holds. *)
Lemma lookup_client_guard v cl :
  lookup_client v cl = None <->
  negb (truthy v) || negb (in_clients v cl) = true.
Proof.
  unfold lookup_client, truthy, in_clients, PyDict.mem.
  destruct v as [|k]; simpl; [tauto|].
  destruct (String.eqb k ""); simpl; [tauto|].
  destruct (PyDict.get k cl); simpl; split; congruence.
Qed.

Lemma session_on_client_eq cid f s :
  session cid (on_client cid f s) = option_map f (session cid s).
Proof.
  unfold session, on_client. destruct (PyDict.get cid (clients s)) eqn:G; simpl.
  - apply dict_get_set_eq.
  - now rewrite G.
Qed.

Lemma session_on_client_neq cid k f s :
  k <> cid -> session k (on_client cid f s) = session k s.
Proof.
  intros Hne. unfold session, on_client.
  destruct (PyDict.get cid (clients s)); simpl; auto.
  now apply dict_get_set_neq.
Qed.

Lemma streaming_on_client cid f s :
  streaming_clients (on_client cid f s) = streaming_clients s.
Proof. unfold on_client. now destruct (PyDict.get cid (clients s)). Qed.

Lemma ids_on_client cid f s : session_ids (on_client cid f s) = session_ids s.
Proof.
  unfold session_ids, on_client. destruct (PyDict.get cid (clients s)) eqn:G; auto.
  simpl. apply dict_keys_set_present. congruence.
Qed.

(** An update that keeps [last_seen] keeps every heartbeat. *)
Lemma heartbeat_on_client cid f s :
  (forall c, last_seen (f c) = last_seen c) ->
  forall k, heartbeat k (on_client cid f s) = heartbeat k s.
Proof.
  intros Hf k. unfold heartbeat. destruct (String.eqb_spec k cid) as [->|Hne].
  - rewrite session_on_client_eq. destruct (session cid s); simpl; congruence.
  - now rewrite session_on_client_neq.
Qed.

(** ** Registration *)

(** C1, as stated, fails twice.  Registering again under a live identifier
    returns that identifier but empties the session's queue, results and
    chat log and clears its streaming flag.  Registering without an id, when
    the generated token happens to be the id of a live session, creates no
    session: it returns that id and resets the session that held it. *)
Lemma register_live_resets_session :
  let data := [("id", VStr "a1b2c3d4")] in
  let s' := snd (register 5 "ffffffff" (VStr "10.0.0.7") data busy_state) in
  let collided := register 5 "a1b2c3d4" (VStr "10.0.0.9") [] busy_state in
  session "a1b2c3d4" busy_state = Some busy_client /\
  fst (register 5 "ffffffff" (VStr "10.0.0.7") data busy_state) = Registered "a1b2c3d4" /\
  queue "a1b2c3d4" busy_state <> queue "a1b2c3d4" s' /\
  option_map results (session "a1b2c3d4" s') <> option_map results (session "a1b2c3d4" busy_state) /\
  option_map chat_log (session "a1b2c3d4" s') <> option_map chat_log (session "a1b2c3d4" busy_state) /\
  option_map streaming (session "a1b2c3d4" s') <> option_map streaming (session "a1b2c3d4" busy_state) /\
  lookup_client (jget "id" []) (clients busy_state) = None /\
  fst collided = Registered "a1b2c3d4" /\
  session_ids (snd collided) = session_ids busy_state /\
  session "a1b2c3d4" (snd collided) = Some (new_client (VStr "10.0.0.9") 5) /\
  session "a1b2c3d4" (snd collided) <> session "a1b2c3d4" busy_state.
Proof. vm_compute. repeat split; discriminate. Qed.

(** C1, amended.  A register call whose id names a live session returns that
    id, adds no session, and replaces the session by a new one: heartbeat and
    address refreshed, queue and results empty, no chat log, streaming off.
    A call with an unknown, empty or absent id stores a session with the
    same initial contents under the generated token: exactly one session is
    created when the token is not the id of a live session, and when it is,
    that session is replaced and none is created.  In every case all other
    sessions, the streaming cache and the uploads are unchanged. *)
Theorem register_spec now uuid8 addr data s :
  let live := lookup_client (jget "id" data) (clients s) in
  let cid := match live with Some (cid, _) => cid | None => uuid8 end in
  let s' := snd (register now uuid8 addr data s) in
  fst (register now uuid8 addr data s) = Registered cid /\
  session_ids s' =
    (match live with
     | Some _ => session_ids s
     | None => if PyDict.mem uuid8 (clients s) then session_ids s
               else session_ids s ++ [uuid8]
     end) /\
  session cid s' = Some (new_client (jget_default "public_ip" addr data) now) /\
  (forall k, k <> cid -> session k s' = session k s) /\
  streaming_clients s' = streaming_clients s /\
  uploads s' = uploads s.
Proof.
  intros live cid s'. subst s'. unfold register. fold live. fold cid.
  cbn [fst snd]. unfold session, session_ids. cbn [clients streaming_clients uploads with_clients].
  split; [reflexivity|]. split.
  - subst cid. destruct live as [[k c]|] eqn:L.
    + apply lookup_client_Some in L as (_ & _ & G).
      apply dict_keys_set_present. congruence.
    + unfold PyDict.mem. destruct (PyDict.get uuid8 (clients s)) eqn:G.
      * apply dict_keys_set_present. congruence.
      * now apply dict_keys_set_absent.
  - split; [apply dict_get_set_eq|].
    split; [|split; reflexivity].
    intros k Hne. now apply dict_get_set_neq.
Qed.

(** [register_spec] on the busy registry: a call under the live id, and a
    call without an id that draws an unused token. *)
Lemma register_spec_witness :
  let again := register 5 "ffffffff" (VStr "10.0.0.7") [("id", VStr "a1b2c3d4")] busy_state in
  let fresh := register 5 "ffffffff" (VStr "10.0.0.9") [] busy_state in
  fst again = Registered "a1b2c3d4" /\
  session_ids (snd again) = ["a1b2c3d4"] /\
  session "a1b2c3d4" (snd again) = Some (new_client (VStr "10.0.0.7") 5) /\
  fst fresh = Registered "ffffffff" /\
  session_ids (snd fresh) = ["a1b2c3d4"; "ffffffff"] /\
  session "ffffffff" (snd fresh) = Some (new_client (VStr "10.0.0.9") 5) /\
  session "a1b2c3d4" (snd fresh) = Some busy_client.
Proof.
  intros again fresh.
  destruct (register_spec 5 "ffffffff" (VStr "10.0.0.7") [("id", VStr "a1b2c3d4")]
              busy_state) as (A1 & A2 & A3 & _).
  destruct (register_spec 5 "ffffffff" (VStr "10.0.0.9") [] busy_state)
    as (F1 & F2 & F3 & F4 & _).
  split; [exact A1|]. split; [exact A2|]. split; [exact A3|].
  split; [exact F1|]. split; [exact F2|]. split; [exact F3|].
  apply (F4 "a1b2c3d4"). discriminate.
Defined.

(** ** Heartbeats *)


Lemma heartbeat_set_results cid g s :
  forall k, heartbeat k (on_client cid (fun c => set_results (g c) c) s) = heartbeat k s.
Proof. apply heartbeat_on_client. reflexivity. Qed.

Lemma result_heartbeat data s k :
  heartbeat k (snd (result data s)) = heartbeat k s.
Proof.
  unfold result. destruct (lookup_client _ _) as [[cid c]|]; [|reflexivity].
  destruct (jget "cmd_id" data) as [|c0]; [reflexivity|].
  destruct (truthy (VStr c0)); [|reflexivity].
  cbn [snd]. apply heartbeat_set_results.
Qed.

Lemma chat_send_heartbeat now uuid8 data s k :
  heartbeat k (snd (chat_send now uuid8 data s)) = heartbeat k s.
Proof.
  unfold chat_send. destruct (lookup_client _ _) as [[cid c]|]; [|reflexivity].
  cbn [snd].
  assert (H2 : forall s0 m, heartbeat k
            (on_client cid (fun c => set_chat (Some (chat_log c ++ [m])) c) s0)
            = heartbeat k s0)
    by (intros; apply heartbeat_on_client; reflexivity).
  assert (H1 : heartbeat k
            (on_client cid (fun c => match chat c with
                                     | None => set_chat (Some []) c
                                     | Some _ => c end) s) = heartbeat k s)
    by (apply heartbeat_on_client; intros c0; destruct (chat c0); reflexivity).
  destruct (value_eqb _ _).
  - rewrite heartbeat_on_client by reflexivity. now rewrite H2.
  - now rewrite H2.
Qed.

Lemma upload_file_heartbeat pf now f file s k :
  heartbeat k (snd (upload_file pf now f file s)) = heartbeat k s.
Proof.
  unfold upload_file. destruct (upload_rejected f s); [reflexivity|].
  destruct (fget "id" f) as [|cid]; [reflexivity|].
  destruct file as [[name file_data]|]; [|reflexivity].
  destruct (String.eqb name ""); [reflexivity|].
  destruct (match PyDict.get "is_stream_frame" f with Some v => _ | None => _ end);
    [reflexivity|].
  destruct (save_outcome pf _); [reflexivity|].
  destruct (fget "cmd_id" f) as [|c0]; [reflexivity|].
  destruct (truthy (VStr c0)); [|reflexivity].
  destruct (PyDict.get cid _); [|reflexivity].
  cbn [snd]. now rewrite heartbeat_set_results.
Qed.

(** The upload guard lets through the ["ADMIN"] sentinel and the ids of live
    sessions, and nothing else. *)
Lemma upload_rejected_false f s :
  upload_rejected f s = false <->
  exists cid, fget "id" f = VStr cid /\
              (cid = "ADMIN" \/ (cid <> "" /\ session cid s <> None)).
Proof.
  unfold upload_rejected, session, in_clients, truthy, value_eqb, PyDict.mem.
  destruct (fget "id" f) as [|cid].
  - split; [discriminate | intros (? & [=] & _)].
  - destruct (String.eqb_spec cid "ADMIN") as [->|Hadm]; cbn [negb andb].
    + split; [eauto | reflexivity].
    + rewrite negb_involutive.
      destruct (String.eqb_spec cid "") as [->|Hne]; cbn [orb].
      * split; [discriminate | intros (? & [= <-] & [?|[? _]]); congruence].
      * destruct (PyDict.get cid (clients s)) eqn:G; cbn [negb].
        -- split; [|reflexivity]. intros _. exists cid. split; [reflexivity|].
           right. split; congruence.
        -- split; [discriminate|]. intros (? & [= <-] & [?|[_ H]]); congruence.
Qed.


(** ** Command queue *)

Lemma admin_command_unfold uuid8 data s cid c :
  lookup_client (jget "target_id" data) (clients s) = Some (cid, c) ->
  admin_command uuid8 data s =
    (Queued uuid8,
     on_client cid
       (fun c => set_command_queue (command_queue c ++ [command_of uuid8 data]) c)
       (stream_side_effect cid (jget "type" data) s)).
Proof. intros L. unfold admin_command. now rewrite L. Qed.

Lemma session_with_streaming_clients k sc s :
  session k (with_streaming_clients sc s) = session k s.
Proof. reflexivity. Qed.

(** The side effect touches the streaming flag of [cid] only. *)
Lemma stream_side_effect_session cid ty s k :
  session k (stream_side_effect cid ty s) =
    if String.eqb k cid then
      option_map
        (fun c => if value_eqb ty (VStr "start_stream") then set_streaming true c
                  else if value_eqb ty (VStr "stop_stream") then set_streaming false c
                  else c) (session cid s)
    else session k s.
Proof.
  unfold stream_side_effect.
  destruct (String.eqb_spec k cid) as [->|Hne].
  - destruct (value_eqb ty (VStr "start_stream")).
    + destruct (negb _); rewrite ?session_with_streaming_clients;
        apply session_on_client_eq.
    + destruct (value_eqb ty (VStr "stop_stream")).
      * destruct (PyDict.mem _ _); rewrite ?session_with_streaming_clients;
          apply session_on_client_eq.
      * now destruct (session cid s).
  - destruct (value_eqb ty (VStr "start_stream")).
    + destruct (negb _); rewrite ?session_with_streaming_clients;
        now apply session_on_client_neq.
    + destruct (value_eqb ty (VStr "stop_stream")); [|reflexivity].
      destruct (PyDict.mem _ _); rewrite ?session_with_streaming_clients;
        now apply session_on_client_neq.
Qed.

Lemma queue_stream_side_effect cid ty s k :
  queue k (stream_side_effect cid ty s) = queue k s.
Proof.
  unfold queue. rewrite stream_side_effect_session.
  destruct (String.eqb_spec k cid) as [->|Hne]; [|reflexivity].
  destruct (session cid s); [|reflexivity]. simpl.
  destruct (value_eqb ty (VStr "start_stream")); [reflexivity|].
  now destruct (value_eqb ty (VStr "stop_stream")).
Qed.

(** Enqueueing appends the new command at the tail of the target's queue. *)
Lemma admin_command_queue uuid8 data s cid c :
  cid <> "" -> session cid s = Some c -> jget "target_id" data = VStr cid ->
  fst (admin_command uuid8 data s) = Queued uuid8 /\
  queue cid (snd (admin_command uuid8 data s)) = queue cid s ++ [command_of uuid8 data] /\
  session cid (snd (admin_command uuid8 data s)) <> None.
Proof.
  intros Hne G T.
  assert (L : lookup_client (jget "target_id" data) (clients s) = Some (cid, c))
    by (apply lookup_client_Some; auto).
  rewrite (admin_command_unfold _ _ _ _ _ L). cbn [fst snd].
  split; [reflexivity|].
  pose proof (queue_stream_side_effect cid (jget "type" data) s cid) as Q.
  unfold queue in *. rewrite session_on_client_eq.
  pose proof (stream_side_effect_session cid (jget "type" data) s cid) as S.
  rewrite String.eqb_refl, G in S. simpl in S.
  rewrite S in *. rewrite G in *. simpl. rewrite Q. split; [reflexivity | discriminate].
Qed.

(** Polling answers with the head of the queue, if any, and removes it. *)
Lemma poll_queue now data s cid c :
  cid <> "" -> session cid s = Some c -> jget "id" data = VStr cid ->
  fst (poll now data s) = CommandResp (hd_error (queue cid s)) /\
  queue cid (snd (poll now data s)) = tl (queue cid s) /\
  session cid (snd (poll now data s)) <> None.
Proof.
  intros Hne G T.
  assert (L : lookup_client (jget "id" data) (clients s) = Some (cid, c))
    by (apply lookup_client_Some; auto).
  unfold poll. rewrite L. unfold queue. rewrite G.
  destruct (command_queue c) as [|cmd rest] eqn:Q; cbn [fst snd hd_error tl].
  - rewrite session_on_client_eq, G. simpl. rewrite Q. repeat split. discriminate.
  - rewrite !session_on_client_eq, G. simpl. repeat split. discriminate.
Qed.

(** Any interleaving of enqueues and polls on a live session behaves as the
    specification's queue. *)
Lemma run_ops_fifo cid ops : forall s,
  cid <> "" -> session cid s <> None -> Forall (addresses cid) ops ->
  fst (run_ops ops s) = fst (fifo_spec ops (queue cid s)) /\
  queue cid (snd (run_ops ops s)) = snd (fifo_spec ops (queue cid s)) /\
  session cid (snd (run_ops ops s)) <> None.
Proof.
  induction ops as [|op ops IH]; intros s Hne Hlive Hall.
  - simpl. auto.
  - inversion Hall as [|? ? Hop Hops]; subst.
    destruct (session cid s) as [c|] eqn:G; [clear Hlive | congruence].
    destruct op as [uuid8 data | now data]; simpl in Hop |- *.
    + destruct (admin_command_queue uuid8 data s cid c Hne G Hop) as (R & Q & L).
      destruct (admin_command uuid8 data s) as [r s1]. cbn [fst snd] in R, Q, L.
      specialize (IH s1 Hne L Hops). rewrite Q in IH.
      destruct (run_ops ops s1) as [rs s2].
      destruct (fifo_spec ops _) as [rs' q']. cbn [fst snd] in *.
      destruct IH as (-> & -> & ?). subst r. auto.
    + destruct (poll_queue now data s cid c Hne G Hop) as (R & Q & L).
      destruct (poll now data s) as [r s1]. cbn [fst snd] in R, Q, L.
      specialize (IH s1 Hne L Hops). rewrite Q in IH.
      destruct (run_ops ops s1) as [rs s2].
      destruct (fifo_spec ops _) as [rs' q']. cbn [fst snd] in *.
      destruct IH as (-> & -> & ?). subst r. auto.
Qed.

Lemma fifo_spec_enqueues enqs : forall q,
  fifo_spec (map enqueue_op enqs) q =
    (map (fun e => Queued (fst e)) enqs,
     q ++ map (fun e => command_of (fst e) (snd e)) enqs).
Proof.
  induction enqs as [|e enqs IH]; intros q; simpl.
  - now rewrite app_nil_r.
  - rewrite IH, <- app_assoc. reflexivity.
Qed.

Lemma fifo_spec_polls polls : forall q,
  fifo_spec (map poll_op polls) q =
    (map (fun c => CommandResp (Some c)) (firstn (List.length polls) q)
       ++ repeat (CommandResp None) (List.length polls - List.length q)%nat,
     skipn (List.length polls) q).
Proof.
  induction polls as [|p polls IH]; intros q; simpl.
  - reflexivity.
  - rewrite IH. destruct q as [|c q]; simpl.
    + rewrite firstn_nil, skipn_nil. simpl. now rewrite Nat.sub_0_r.
    + reflexivity.
Qed.

(** C3.  On a live session, after any sequence of enqueue calls, successive
    polls return the queued commands in the order they were enqueued: the
    i-th poll returns the i-th command, which is removed from the queue, and
    every poll past the end of the queue returns none. *)
Theorem poll_fifo cid c s (enqs : list (string * json)) (polls : list (Z * json)) :
  cid <> "" ->
  session cid s = Some c ->
  Forall (fun e => jget "target_id" (snd e) = VStr cid) enqs ->
  Forall (fun p => jget "id" (snd p) = VStr cid) polls ->
  let cmds := queue cid s ++ map (fun e => command_of (fst e) (snd e)) enqs in
  let s1 := snd (run_ops (map enqueue_op enqs) s) in
  let n := List.length polls in
  fst (run_ops (map enqueue_op enqs) s) = map (fun e => Queued (fst e)) enqs /\
  queue cid s1 = cmds /\
  fst (run_ops (map poll_op polls) s1) =
    map (fun c => CommandResp (Some c)) (firstn n cmds)
      ++ repeat (CommandResp None) (n - List.length cmds)%nat /\
  queue cid (snd (run_ops (map poll_op polls) s1)) = skipn n cmds.
Proof.
  intros Hne G He Hp cmds s1 n.
  assert (Hlive : session cid s <> None) by congruence.
  assert (He' : Forall (addresses cid) (map enqueue_op enqs))
    by (apply Forall_map; exact He).
  assert (Hp' : Forall (addresses cid) (map poll_op polls))
    by (apply Forall_map; exact Hp).
  destruct (run_ops_fifo cid _ s Hne Hlive He') as (R1 & Q1 & L1).
  rewrite fifo_spec_enqueues in R1, Q1. cbn [fst snd] in R1, Q1.
  fold s1 in Q1, L1. fold cmds in Q1.
  destruct (run_ops_fifo cid _ s1 Hne L1 Hp') as (R2 & Q2 & _).
  rewrite fifo_spec_polls, Q1 in R2, Q2. cbn [fst snd] in R2, Q2.
  fold n in R2, Q2. auto.
Qed.

(** [poll_fifo] on the scenario of two commands and three polls. *)
Lemma poll_fifo_witness :
  let enqs := [("c9d8e7f6", [("target_id", VStr "a1b2c3d4"); ("type", VStr "shell");
                              ("params", VStr "whoami")]);
               ("0badc0de", [("target_id", VStr "a1b2c3d4"); ("type", VStr "screen")])] in
  let polls := [(1, [("id", VStr "a1b2c3d4")]); (2, [("id", VStr "a1b2c3d4")]);
                (3, [("id", VStr "a1b2c3d4")])] in
  fst (run_ops (map poll_op polls) (snd (run_ops (map enqueue_op enqs) idle_state))) =
    [CommandResp (Some {| cmd_id := "c9d8e7f6"; cmd_type := VStr "shell";
                          cmd_params := VStr "whoami" |});
     CommandResp (Some {| cmd_id := "0badc0de"; cmd_type := VStr "screen";
                          cmd_params := VStr "" |});
     CommandResp None].
Proof.
  intros enqs polls.
  refine (proj1 (proj2 (proj2
    (poll_fifo "a1b2c3d4" idle_client idle_state enqs polls _ _ _ _)))).
  - discriminate.
  - reflexivity.
  - repeat constructor.
  - repeat constructor.
Defined.

(** ** Result store *)

(** C4, as stated, fails when two sessions report under one command id: the
    scan serves the session that registered first, not the most recent
    report, and a second consume finds the other payload instead of
    reporting pending. *)
Lemma consume_serves_first_session :
  let older := [("id", VStr "a1b2c3d4"); ("cmd_id", VStr "c9d8e7f6"); ("output", VStr "old")] in
  let newer := [("id", VStr "e5f6a7b8"); ("cmd_id", VStr "c9d8e7f6"); ("output", VStr "new")] in
  let s2 := snd (result newer (snd (result older two_clients))) in
  fst (result older two_clients) = StatusOk /\
  fst (result newer (snd (result older two_clients))) = StatusOk /\
  fst (admin_response "c9d8e7f6" s2) = Done (VStr "old") /\
  fst (admin_response "c9d8e7f6" (snd (admin_response "c9d8e7f6" s2))) = Done (VStr "new").
Proof. vm_compute. auto. Qed.

Lemma pop_result_none cmd cl :
  Forall (fun e : string * client => PyDict.get cmd (results (snd e)) = None) cl ->
  pop_result cmd cl = None.
Proof.
  induction 1 as [|[k v] cl H _ IH]; simpl in *; [reflexivity|].
  now rewrite H, IH.
Qed.

Lemma pop_result_set cmd cid c res cl :
  Forall (fun e : string * client =>
            fst e <> cid -> PyDict.get cmd (results (snd e)) = None) cl ->
  PyDict.get cid cl <> None ->
  PyDict.get cmd (results c) = Some res ->
  pop_result cmd (PyDict.set cid c cl) =
    Some (res, PyDict.set cid (set_results (PyDict.del cmd (results c)) c) cl).
Proof.
  intros Hall Hin Hres. induction Hall as [|[k v] cl H _ IH]; simpl in *; [congruence|].
  destruct (String.eqb_spec cid k) as [->|Hne]; simpl.
  - now rewrite Hres.
  - rewrite H by congruence. rewrite IH by assumption. reflexivity.
Qed.

Lemma in_set_wf (cid : string) (c : client) cl e :
  PyDict.wf cl -> In e (PyDict.set cid c cl) ->
  e = (cid, c) \/ (fst e <> cid /\ In e cl).
Proof.
  unfold PyDict.wf. induction cl as [|[k v] cl IH]; simpl; intros Hnd Hin.
  - destruct Hin as [<-|[]]. now left.
  - inversion Hnd as [|? ? Hni Hnd']; subst.
    destruct (String.eqb_spec cid k) as [->|Hne]; simpl in Hin.
    + destruct Hin as [<-|Hin]; [now left|]. right. split; [|now right].
      intros E. apply Hni. rewrite <- E. now apply in_map.
    + destruct Hin as [<-|Hin].
      * right. split; [simpl; congruence | now left].
      * destruct (IH Hnd' Hin) as [->|[? ?]]; [now left | right; auto].
Qed.

(** One report followed by two consumes, in a state where the reporting
    session is the only holder of the command id. *)
Lemma consume_after_set data s cid c cmd :
  PyDict.wf (clients s) -> cid <> "" -> cmd <> "" ->
  session cid s = Some c -> only_holder cid cmd s ->
  jget "id" data = VStr cid -> jget "cmd_id" data = VStr cmd ->
  let s1 := snd (result data s) in
  fst (result data s) = StatusOk /\
  fst (admin_response cmd s1) = Done (jget "output" data) /\
  fst (admin_response cmd (snd (admin_response cmd s1))) = Pending /\
  PyDict.wf (clients s1) /\ session cid s1 <> None /\ only_holder cid cmd s1.
Proof.
  intros Hwf Hcid Hcmd G Hiso Hid Hc.
  assert (L : lookup_client (jget "id" data) (clients s) = Some (cid, c))
    by (apply lookup_client_Some; auto).
  assert (Hall : Forall (fun e : string * client =>
            fst e <> cid -> PyDict.get cmd (results (snd e)) = None) (clients s)).
  { apply Forall_forall. intros [k v] Hin Hk. simpl in *.
    apply (Hiso k v Hk). now apply dict_in_get_wf. }
  unfold result. rewrite L, Hc. unfold truthy.
  apply String.eqb_neq in Hcmd. rewrite Hcmd. cbn [negb fst snd].
  unfold on_client. unfold session in G. rewrite G.
  set (out := jget "output" data).
  set (c1 := set_results (PyDict.set cmd out (results c)) c).
  assert (P1 : pop_result cmd (PyDict.set cid c1 (clients s)) =
               Some (out, PyDict.set cid
                            (set_results (PyDict.del cmd (results c1)) c1) (clients s))).
  { apply pop_result_set; [assumption | congruence |].
    subst c1. simpl. apply dict_get_set_eq. }
  split; [reflexivity|]. split; [|split; [|split; [|split]]].
  - unfold admin_response. cbn [clients with_clients]. now rewrite P1.
  - unfold admin_response at 2. cbn [clients with_clients]. rewrite P1. cbn [snd].
    unfold admin_response. cbn [clients with_clients].
    rewrite pop_result_none; [reflexivity|].
    apply Forall_forall. intros e Hin.
    destruct (in_set_wf _ _ _ _ Hwf Hin) as [->|[Hk Hin']].
    + simpl. apply dict_get_del_eq.
    + rewrite Forall_forall in Hall. now apply Hall.
  - cbn [clients with_clients]. now apply dict_wf_set.
  - unfold session. cbn [clients with_clients]. rewrite dict_get_set_eq. discriminate.
  - intros k v Hk. unfold session. cbn [clients with_clients].
    rewrite dict_get_set_neq by assumption. apply Hiso. assumption.
Qed.

(** C4, amended.  For a command id under which no other live session holds
    a result: consumeResult returns the payload of the most recent
    reportResult for that id and removes it, so that a second consumeResult
    with no report in between answers pending; a report for an id that
    already has a stored result overwrites it. *)
Theorem result_consume_spec first second s cid c cmd :
  PyDict.wf (clients s) -> cid <> "" -> cmd <> "" ->
  session cid s = Some c -> only_holder cid cmd s ->
  jget "id" first = VStr cid -> jget "cmd_id" first = VStr cmd ->
  jget "id" second = VStr cid -> jget "cmd_id" second = VStr cmd ->
  let s1 := snd (result first s) in
  let s2 := snd (result second s1) in
  fst (admin_response cmd s1) = Done (jget "output" first) /\
  fst (admin_response cmd (snd (admin_response cmd s1))) = Pending /\
  fst (admin_response cmd s2) = Done (jget "output" second) /\
  fst (admin_response cmd (snd (admin_response cmd s2))) = Pending.
Proof.
  intros Hwf Hcid Hcmd G Hiso Hid1 Hc1 Hid2 Hc2 s1 s2.
  destruct (consume_after_set first s cid c cmd Hwf Hcid Hcmd G Hiso Hid1 Hc1)
    as (_ & D1 & P1 & Hwf1 & L1 & Hiso1).
  fold s1 in D1, P1, Hwf1, L1, Hiso1.
  destruct (session cid s1) as [c1|] eqn:G1; [|congruence].
  destruct (consume_after_set second s1 cid c1 cmd Hwf1 Hcid Hcmd G1 Hiso1 Hid2 Hc2)
    as (_ & D2 & P2 & _).
  fold s2 in D2, P2. auto.
Qed.

(** [result_consume_spec] on a retried report in the two-session registry. *)
Lemma result_consume_spec_witness :
  let first := [("id", VStr "e5f6a7b8"); ("cmd_id", VStr "c9d8e7f6"); ("output", VStr "roo")] in
  let second := [("id", VStr "e5f6a7b8"); ("cmd_id", VStr "c9d8e7f6"); ("output", VStr "root")] in
  let s2 := snd (result second (snd (result first two_clients))) in
  fst (admin_response "c9d8e7f6" s2) = Done (VStr "root") /\
  fst (admin_response "c9d8e7f6" (snd (admin_response "c9d8e7f6" s2))) = Pending.
Proof.
  intros first second s2.
  refine (proj2 (proj2
    (result_consume_spec first second two_clients "e5f6a7b8" idle_client "c9d8e7f6"
       _ _ _ _ _ _ _ _ _))); try reflexivity; try discriminate.
  - repeat constructor; simpl; intuition discriminate.
  - intros k c Hk. unfold session. simpl.
    destruct (String.eqb k "a1b2c3d4"); [intros [= <-]; reflexivity|].
    destruct (String.eqb k "e5f6a7b8"); [intros [= <-]; reflexivity | discriminate].
Defined.

(** ** Expiry *)

Lemma del_as_filter {V} k (d : PyDict.t V) :
  PyDict.del k d = filter (fun e => negb (String.eqb k (fst e))) d.
Proof.
  induction d as [|[k' v] d IH]; simpl; [reflexivity|].
  destruct (String.eqb k k'); simpl; now rewrite IH.
Qed.

Lemma filter_twice {A} (p q : A -> bool) l :
  filter p (filter q l) = filter (fun x => q x && p x) l.
Proof.
  induction l as [|x l IH]; simpl; [reflexivity|].
  destruct (q x); simpl; [destruct (p x)|]; now rewrite IH.
Qed.

(** [remove_dead] deletes the key from both dictionaries: the guard on
    [streaming_clients] only avoids a [KeyError]. *)
Lemma remove_dead_eq d s :
  remove_dead s d =
    {| clients := PyDict.del d (clients s);
       streaming_clients := PyDict.del d (streaming_clients s);
       uploads := uploads s |}.
Proof.
  unfold remove_dead, PyDict.mem. cbn [streaming_clients with_clients].
  destruct (PyDict.get d (streaming_clients s)) eqn:G.
  - reflexivity.
  - unfold with_clients.
    now rewrite (dict_del_absent d (streaming_clients s)) by assumption.
Qed.

Lemma fold_remove_dead dead : forall s,
  fold_left remove_dead dead s =
    {| clients := filter (fun e => negb (listed (fst e) dead)) (clients s);
       streaming_clients :=
         filter (fun e => negb (listed (fst e) dead)) (streaming_clients s);
       uploads := uploads s |}.
Proof.
  induction dead as [|d dead IH]; intros s; simpl.
  - destruct s as [cl sc up]. simpl.
    f_equal; symmetry; apply forallb_filter_id, forallb_forall; reflexivity.
  - rewrite IH, remove_dead_eq. cbn [clients streaming_clients uploads].
    rewrite !del_as_filter, !filter_twice.
    f_equal; apply filter_ext; intros [k v]; simpl;
      rewrite (String.eqb_sym k d); now rewrite negb_orb.
Qed.

Lemma clean_clients_eq now s :
  clean_clients now s =
    {| clients := filter (fun e => negb (listed (fst e) (dead_ids now s))) (clients s);
       streaming_clients :=
         filter (fun e => negb (listed (fst e) (dead_ids now s))) (streaming_clients s);
       uploads := uploads s |}.
Proof. unfold clean_clients. apply fold_remove_dead. Qed.

Lemma get_filter_keys {V} (p : string -> bool) k (d : PyDict.t V) :
  PyDict.get k (filter (fun e => p (fst e)) d) = if p k then PyDict.get k d else None.
Proof.
  induction d as [|[k' v] d IH]; simpl.
  - now destruct (p k).
  - destruct (p k') eqn:P; simpl; destruct (String.eqb_spec k k') as [->|Hne].
    + now rewrite P.
    + exact IH.
    + rewrite IH, P. reflexivity.
    + exact IH.
Qed.

Lemma session_dead_listed now s cid c :
  session cid s = Some c -> now - last_seen c > 60 ->
  listed cid (dead_ids now s) = true.
Proof.
  intros G Hold. apply dict_get_Some_in in G.
  unfold listed, dead_ids. apply existsb_exists. exists cid.
  split; [|apply String.eqb_refl].
  change cid with (fst (cid, c)). apply in_map. apply filter_In. split; [assumption|].
  unfold is_dead. simpl. apply Z.gtb_lt. lia.
Qed.

(** Deleting [cid] beforehand removes exactly [cid] from the dead keys. *)
Lemma listed_dead_ids_del now s cid k :
  listed k (dead_ids now (remove_dead s cid)) =
    negb (String.eqb cid k) && listed k (dead_ids now s).
Proof.
  unfold dead_ids. rewrite remove_dead_eq. cbn [clients].
  induction (clients s) as [|[k' v] cl IH]; simpl.
  - now rewrite andb_false_r.
  - destruct (String.eqb_spec cid k') as [<-|Hne]; simpl.
    + rewrite IH. destruct (is_dead now (cid, v)); simpl; [|reflexivity].
      rewrite (String.eqb_sym k cid). now destruct (String.eqb cid k).
    + destruct (is_dead now (k', v)); simpl; [|exact IH].
      rewrite IH.
      destruct (String.eqb_spec k k') as [->|Hne2]; simpl.
      * apply String.eqb_neq in Hne. now rewrite Hne.
      * reflexivity.
Qed.

(** The sweep cannot tell a dead session from a missing one: its outcome is
    that of the sweep on the state without the session and its stream entry. *)
Lemma clean_clients_forgets now s cid :
  listed cid (dead_ids now s) = true ->
  clean_clients now (remove_dead s cid) = clean_clients now s.
Proof.
  intros Hdead. rewrite !clean_clients_eq.
  assert (E : forall k, negb (String.eqb cid k)
                        && negb (listed k (dead_ids now (remove_dead s cid)))
                      = negb (listed k (dead_ids now s))).
  { intros k. rewrite listed_dead_ids_del.
    destruct (String.eqb_spec cid k) as [<-|Hne]; simpl; [now rewrite Hdead | reflexivity]. }
  remember (dead_ids now (remove_dead s cid)) as dead' eqn:D. clear D.
  rewrite remove_dead_eq. cbn [clients streaming_clients uploads].
  rewrite !del_as_filter, !filter_twice.
  f_equal; apply filter_ext; intros [k v]; apply E.
Qed.

(** C5.  A session silent for more than 60 time units is removed by the
    sweep at the start of listSessions: it is not in the returned list, and
    neither the session nor its stream entry is in the state afterward, so
    that poll, reportResult and enqueue answer 404 for its id, its chat
    history is empty, it has no frame and is not streaming.  Nothing it held
    can be reached later: the listing and every later response are those of
    the server in which the session had never existed. *)
Theorem sweep_evicts pf now seen_at s cid c :
  session cid s = Some c ->
  now - last_seen c > 60 ->
  let s' := snd (admin_list now seen_at s) in
  (exists active, fst (admin_list now seen_at s) = ClientList active) /\
  ~ In cid (listed_ids (fst (admin_list now seen_at s))) /\
  session cid s' = None /\
  PyDict.get cid (streaming_clients s') = None /\
  (forall t data, jget "id" data = VStr cid ->
     poll t data s' = (Error 404 "Unknown client, re-register", s')) /\
  (forall data, jget "id" data = VStr cid ->
     result data s' = (Error 404 "Unknown client", s')) /\
  (forall u data, jget "target_id" data = VStr cid ->
     admin_command u data s' = (Error 404 "Client not found", s')) /\
  chat_history cid s' = (History [], s') /\
  admin_stream_frame cid s' = (Error 404 "No frame available", s') /\
  admin_stream_status cid s' = (StreamStatus false, s') /\
  admin_list now seen_at s = admin_list now seen_at (without_session cid s) /\
  (forall rs, serve pf rs s' = serve pf rs (snd (admin_list now seen_at (without_session cid s)))).
Proof.
  intros G Hold s'.
  pose proof (session_dead_listed now s cid c G Hold) as Hdead.
  assert (Hs : session cid s' = None).
  { subst s'. unfold admin_list, session. cbn [snd].
    rewrite clean_clients_eq. cbn [clients].
    rewrite (get_filter_keys (fun k => negb (listed k (dead_ids now s)))).
    now rewrite Hdead. }
  assert (Hsc : PyDict.get cid (streaming_clients s') = None).
  { subst s'. unfold admin_list. cbn [snd].
    rewrite clean_clients_eq. cbn [streaming_clients].
    rewrite (get_filter_keys (fun k => negb (listed k (dead_ids now s)))).
    now rewrite Hdead. }
  assert (Hl : forall v, v = VStr cid -> lookup_client v (clients s') = None).
  { intros v ->. unfold lookup_client. destruct (String.eqb cid ""); [reflexivity|].
    unfold session in Hs. now rewrite Hs. }
  assert (Hsame : admin_list now seen_at s = admin_list now seen_at (without_session cid s)).
  { unfold admin_list, without_session. now rewrite clean_clients_forgets. }
  split; [unfold admin_list; cbn [fst]; eauto|].
  split.
  { unfold admin_list. cbn [fst listed_ids]. rewrite map_map. cbn [fst].
    apply (dict_get_None_notin cid (clients s')). exact Hs. }
  repeat split; try assumption.
  - intros t data Hd. unfold poll. now rewrite (Hl _ Hd).
  - intros data Hd. unfold result. now rewrite (Hl _ Hd).
  - intros u data Hd. unfold admin_command. now rewrite (Hl _ Hd).
  - unfold chat_history. unfold session in Hs. now rewrite Hs.
  - unfold admin_stream_frame. now rewrite Hsc.
  - unfold admin_stream_status. unfold session in Hs. now rewrite Hs.
  - intros rs. subst s'. now rewrite Hsame.
Qed.

(** [sweep_evicts] on a session last seen at 0 and listed at 61. *)
Lemma sweep_evicts_witness :
  fst (admin_list 61 (fun _ => 61) busy_state) = ClientList [] /\
  session "a1b2c3d4" (snd (admin_list 61 (fun _ => 61) busy_state)) = None /\
  admin_stream_frame "a1b2c3d4" (snd (admin_list 61 (fun _ => 61) busy_state))
    = (Error 404 "No frame available", snd (admin_list 61 (fun _ => 61) busy_state)).
Proof.
  pose proof (sweep_evicts plain 61 (fun _ => 61) busy_state "a1b2c3d4" busy_client
                eq_refl eq_refl) as H.
  cbv zeta in H.
  destruct H as (_ & _ & H3 & _ & _ & _ & _ & _ & H9 & _).
  split; [reflexivity|]. split; [exact H3 | exact H9].
Defined.

(** ** Streaming *)

Lemma stream_side_effect_cache cid ty s :
  PyDict.get cid (streaming_clients (stream_side_effect cid ty s)) =
    if value_eqb ty (VStr "start_stream") then
      Some (match PyDict.get cid (streaming_clients s) with
            | Some e => e
            | None => empty_entry
            end)
    else if value_eqb ty (VStr "stop_stream") then None
    else PyDict.get cid (streaming_clients s).
Proof.
  unfold stream_side_effect, PyDict.mem.
  destruct (value_eqb ty (VStr "start_stream")).
  - rewrite streaming_on_client.
    destruct (PyDict.get cid (streaming_clients s)) eqn:G; cbn [negb].
    + now rewrite streaming_on_client.
    + cbn [streaming_clients with_streaming_clients]. apply dict_get_set_eq.
  - destruct (value_eqb ty (VStr "stop_stream")); [|reflexivity].
    rewrite streaming_on_client.
    destruct (PyDict.get cid (streaming_clients s)) eqn:G.
    + cbn [streaming_clients with_streaming_clients]. apply dict_get_del_eq.
    + now rewrite streaming_on_client.
Qed.

(** C6.  On a live session, enqueueing a [start_stream] command sets the
    streaming flag and creates the stream entry if there is none, and
    enqueueing a [stop_stream] command clears the flag and deletes the stream
    entry, so that no frame is served; the flag read by getStreamingFlag has
    changed when the enqueue returns, while the command is still waiting at
    the tail of the queue. *)
Theorem stream_commands_take_effect (start : bool) uuid8 data s cid c :
  cid <> "" ->
  session cid s = Some c ->
  jget "target_id" data = VStr cid ->
  jget "type" data = VStr (if start then "start_stream" else "stop_stream") ->
  let s' := snd (admin_command uuid8 data s) in
  fst (admin_command uuid8 data s) = Queued uuid8 /\
  admin_stream_status cid s' = (StreamStatus start, s') /\
  PyDict.get cid (streaming_clients s') =
    (if start
     then Some (match PyDict.get cid (streaming_clients s) with
                | Some e => e
                | None => empty_entry
                end)
     else None) /\
  fst (admin_stream_frame cid s') =
    (if start then fst (admin_stream_frame cid s)
     else Error 404 "No frame available") /\
  queue cid s' = queue cid s ++ [command_of uuid8 data].
Proof.
  intros Hne G T Ty s'.
  destruct (admin_command_queue uuid8 data s cid c Hne G T) as (R & Q & _).
  fold s' in Q.
  assert (L : lookup_client (jget "target_id" data) (clients s) = Some (cid, c))
    by (apply lookup_client_Some; auto).
  pose proof (admin_command_unfold uuid8 data s cid c L) as U.
  assert (S' : s' = on_client cid
                 (fun c => set_command_queue (command_queue c ++ [command_of uuid8 data]) c)
                 (stream_side_effect cid (jget "type" data) s))
    by (subst s'; now rewrite U).
  assert (Hflag : option_map streaming (session cid s') = Some start).
  { rewrite S', session_on_client_eq, stream_side_effect_session.
    rewrite String.eqb_refl, G, Ty. destruct start; reflexivity. }
  assert (Hcache : PyDict.get cid (streaming_clients s') =
            if start
            then Some (match PyDict.get cid (streaming_clients s) with
                       | Some e => e
                       | None => empty_entry
                       end)
            else None).
  { rewrite S', streaming_on_client, stream_side_effect_cache, Ty.
    destruct start; reflexivity. }
  split; [exact R|]. split; [|split; [exact Hcache|split; [|exact Q]]].
  - unfold admin_stream_status. unfold session in Hflag.
    destruct (PyDict.get cid (clients s')); simpl in Hflag; congruence.
  - unfold admin_stream_frame. rewrite Hcache. destruct start; [|reflexivity].
    destruct (PyDict.get cid (streaming_clients s)) as [e|]; [|reflexivity].
    cbn. now destruct (last_frame e) as [[|b fr]|].
Qed.

(** [stream_commands_take_effect] on a start and on the stop that follows. *)
Lemma stream_commands_take_effect_witness :
  let start := [("target_id", VStr "a1b2c3d4"); ("type", VStr "start_stream")] in
  let s1 := snd (admin_command "c9d8e7f6" start idle_state) in
  admin_stream_status "a1b2c3d4" s1 = (StreamStatus true, s1) /\
  PyDict.get "a1b2c3d4" (streaming_clients s1) = Some empty_entry.
Proof.
  intros start s1.
  pose proof (stream_commands_take_effect true "c9d8e7f6" start idle_state
                "a1b2c3d4" idle_client) as H.
  destruct H as (_ & H2 & H3 & _); try reflexivity; try discriminate.
  split; [exact H2 | exact H3].
Defined.

(** C7, as stated, fails for the empty byte string: the push is accepted,
    and the read that follows reports that no frame is available. *)
Lemma empty_frame_not_served :
  let f := [("id", "a1b2c3d4"); ("is_stream_frame", "true")] in
  let pushed := upload_file plain 7 f (Some ("frame.jpg", [])) idle_state in
  fst pushed = FrameReceived /\
  fst (admin_stream_frame "a1b2c3d4" (snd pushed)) = Error 404 "No frame available".
Proof. vm_compute. auto. Qed.

Lemma push_frame pf now f name data s cid :
  fget "id" f = VStr cid ->
  upload_rejected f s = false ->
  PyDict.get "is_stream_frame" f = Some "true" ->
  name <> "" ->
  let s1 := snd (upload_file pf now f (Some (name, data)) s) in
  fst (upload_file pf now f (Some (name, data)) s) = FrameReceived /\
  PyDict.get cid (streaming_clients s1) =
    Some {| last_frame := Some data; frame_time := Some now |} /\
  clients s1 = clients s.
Proof.
  intros Hid Hok Hflag Hname.
  unfold upload_file. rewrite Hid, Hok, Hflag.
  apply String.eqb_neq in Hname. rewrite Hname.
  cbn [String.eqb Ascii.eqb Bool.eqb fst snd last_frame].
  cbn [streaming_clients clients with_streaming_clients].
  rewrite dict_get_set_eq. auto.
Qed.

(** C7, amended.  For a live session (or the ["ADMIN"] sentinel), whatever
    its streaming flag, pushFrame of a non-empty byte string followed by
    latestFrame returns exactly the pushed bytes, while after a push of the
    empty byte string latestFrame reports that no frame is available; a
    second pushFrame replaces the slot, so that only the most recent frame
    and its capture time are kept. *)
Theorem push_then_latest pf now1 now2 f name1 name2 data1 data2 s cid :
  fget "id" f = VStr cid ->
  upload_rejected f s = false ->
  PyDict.get "is_stream_frame" f = Some "true" ->
  name1 <> "" -> name2 <> "" ->
  let s1 := snd (upload_file pf now1 f (Some (name1, data1)) s) in
  let s2 := snd (upload_file pf now2 f (Some (name2, data2)) s1) in
  fst (upload_file pf now1 f (Some (name1, data1)) s) = FrameReceived /\
  admin_stream_frame cid s1 = (served data1, s1) /\
  fst (upload_file pf now2 f (Some (name2, data2)) s1) = FrameReceived /\
  admin_stream_frame cid s2 = (served data2, s2) /\
  PyDict.get cid (streaming_clients s2) =
    Some {| last_frame := Some data2; frame_time := Some now2 |} /\
  clients s2 = clients s.
Proof.
  intros Hid Hok Hflag Hn1 Hn2 s1 s2.
  destruct (push_frame pf now1 f name1 data1 s cid Hid Hok Hflag Hn1) as (R1 & E1 & C1).
  fold s1 in E1, C1.
  assert (Hok1 : upload_rejected f s1 = false)
    by (unfold upload_rejected in *; now rewrite C1).
  destruct (push_frame pf now2 f name2 data2 s1 cid Hid Hok1 Hflag Hn2) as (R2 & E2 & C2).
  fold s2 in E2, C2.
  repeat split; try assumption.
  - unfold admin_stream_frame. rewrite E1. now destruct data1.
  - unfold admin_stream_frame. rewrite E2. now destruct data2.
  - congruence.
Qed.

(** [push_then_latest] on two one-byte frames pushed by a session that is not
    streaming. *)
Lemma push_then_latest_witness :
  let f := [("id", "a1b2c3d4"); ("is_stream_frame", "true")] in
  let s1 := snd (upload_file plain 7 f (Some ("a.jpg", ["x"%byte])) idle_state) in
  let s2 := snd (upload_file plain 8 f (Some ("b.jpg", ["y"%byte])) s1) in
  admin_stream_frame "a1b2c3d4" s1 = (Frame ["x"%byte], s1) /\
  admin_stream_frame "a1b2c3d4" s2 = (Frame ["y"%byte], s2).
Proof.
  intros f s1 s2.
  pose proof (push_then_latest plain 7 8 f "a.jpg" "b.jpg"
                ["x"%byte] ["y"%byte] idle_state "a1b2c3d4") as H.
  destruct H as (_ & H2 & _ & H4 & _); try reflexivity; try discriminate.
  split; [exact H2 | exact H4].
Defined.

(** ** Chat *)

(** C8.  On a live session, sendChat appends exactly one entry (sender,
    text, current time) to the chat log; when the sender is ["admin"] it also
    appends exactly one [chat_msg] command, whose params are the text, at the
    tail of the session's command queue, and for any other sender the queue
    is unchanged.  Other sessions are untouched. *)
Theorem chat_send_spec now uuid8 data s cid c :
  cid <> "" ->
  session cid s = Some c ->
  chat_target data = VStr cid ->
  let s' := snd (chat_send now uuid8 data s) in
  let entry := {| sender := jget "sender" data; message := jget "message" data;
                  timestamp := now |} in
  let delivery := {| cmd_id := uuid8; cmd_type := VStr "chat_msg";
                     cmd_params := jget "message" data |} in
  fst (chat_send now uuid8 data s) = Sent /\
  option_map chat_log (session cid s') = Some (chat_log c ++ [entry]) /\
  queue cid s' =
    (if value_eqb (jget "sender" data) (VStr "admin")
     then queue cid s ++ [delivery]
     else queue cid s) /\
  (forall k, k <> cid -> session k s' = session k s).
Proof.
  intros Hne G T s' entry delivery.
  assert (L : lookup_client (chat_target data) (clients s) = Some (cid, c))
    by (apply lookup_client_Some; auto).
  subst s'. unfold chat_send. fold (chat_target data). rewrite L.
  cbn [fst snd]. fold entry. fold delivery.
  split; [reflexivity|]. unfold queue.
  destruct (value_eqb (jget "sender" data) (VStr "admin")).
  - rewrite !session_on_client_eq, G. cbn [option_map].
    repeat split.
    + unfold chat_log. destruct (chat c) eqn:E; cbn; rewrite ?E; reflexivity.
    + destruct (chat c) eqn:E; cbn; rewrite ?E; reflexivity.
    + intros k Hk. now rewrite !session_on_client_neq.
  - rewrite !session_on_client_eq, G. cbn [option_map].
    repeat split.
    + unfold chat_log. destruct (chat c) eqn:E; cbn; rewrite ?E; reflexivity.
    + destruct (chat c) eqn:E; cbn; rewrite ?E; reflexivity.
    + intros k Hk. now rewrite !session_on_client_neq.
Qed.

(** [chat_send_spec] on the scenario: a controller message "hi", then the
    history and a poll. *)
Lemma chat_send_spec_witness :
  let data := [("target_id", VStr "a1b2c3d4"); ("sender", VStr "admin");
               ("message", VStr "hi")] in
  let s' := snd (chat_send 9 "c9d8e7f6" data idle_state) in
  fst (chat_history "a1b2c3d4" s') =
    History [{| sender := VStr "admin"; message := VStr "hi"; timestamp := 9 |}] /\
  fst (poll 10 [("id", VStr "a1b2c3d4")] s') =
    CommandResp (Some {| cmd_id := "c9d8e7f6"; cmd_type := VStr "chat_msg";
                         cmd_params := VStr "hi" |}).
Proof.
  intros data s'.
  pose proof (chat_send_spec 9 "c9d8e7f6" data idle_state "a1b2c3d4" idle_client) as H.
  destruct H as (_ & H2 & H3 & _); try reflexivity; try discriminate.
  split; reflexivity.
Defined.





(** ** Re-registration and the streaming cache *)

(** C10.  Registering again under the id of a live session clears that
    session's streaming flag and leaves the streaming cache as it was, so
    that a frame served for that id before the call is served after it. *)
Theorem register_keeps_frame now uuid8 addr data s cid c frame :
  cid <> "" ->
  session cid s = Some c ->
  jget "id" data = VStr cid ->
  fst (admin_stream_frame cid s) = Frame frame ->
  let s' := snd (register now uuid8 addr data s) in
  fst (register now uuid8 addr data s) = Registered cid /\
  admin_stream_status cid s' = (StreamStatus false, s') /\
  streaming_clients s' = streaming_clients s /\
  fst (admin_stream_frame cid s') = Frame frame.
Proof.
  intros Hne G T F s'.
  assert (L : lookup_client (jget "id" data) (clients s) = Some (cid, c))
    by (apply lookup_client_Some; auto).
  subst s'. unfold register. rewrite L. cbn [fst snd].
  split; [reflexivity|]. split; [|split; [reflexivity|]].
  - unfold admin_stream_status. cbn [clients with_clients].
    now rewrite dict_get_set_eq.
  - unfold admin_stream_frame in *. cbn [streaming_clients with_clients].
    destruct (PyDict.get cid (streaming_clients s)) as [e|]; [|exact F].
    destruct (last_frame e) as [[|b fr]|]; exact F.
Qed.

(** [register_keeps_frame] on a streaming session with a cached frame. *)
Lemma register_keeps_frame_witness :
  let s' := snd (register 5 "ffffffff" (VStr "10.0.0.7") [("id", VStr "a1b2c3d4")] busy_state) in
  admin_stream_status "a1b2c3d4" s' = (StreamStatus false, s') /\
  fst (admin_stream_frame "a1b2c3d4" s') = Frame ["x"%byte].
Proof.
  intros s'.
  pose proof (register_keeps_frame 5 "ffffffff" (VStr "10.0.0.7")
                [("id", VStr "a1b2c3d4")] busy_state "a1b2c3d4" busy_client
                ["x"%byte]) as H.
  destruct H as (_ & H2 & _ & H4); try reflexivity; try discriminate.
  split; [exact H2 | exact H4].
Defined.

(** ** The dictionary invariant *)

Create HintDb wf discriminated.

Lemma wf_initial : wf_state initial_state.
Proof. split; constructor. Qed.

Lemma wf_on_client cid f s : wf_state s -> wf_state (on_client cid f s).
Proof.
  intros [H1 H2]. split.
  - unfold PyDict.wf. fold (session_ids (on_client cid f s)).
    rewrite ids_on_client. exact H1.
  - now rewrite streaming_on_client.
Qed.

Lemma wf_set_client k c s :
  wf_state s -> wf_state (with_clients (PyDict.set k c (clients s)) s).
Proof. intros [H1 H2]. split; [now apply dict_wf_set | exact H2]. Qed.

Lemma wf_set_stream k e s :
  wf_state s ->
  wf_state (with_streaming_clients (PyDict.set k e (streaming_clients s)) s).
Proof. intros [H1 H2]. split; [exact H1 | now apply dict_wf_set]. Qed.

Lemma wf_with_streaming sc s :
  wf_state s -> PyDict.wf sc -> wf_state (with_streaming_clients sc s).
Proof. intros [H1 H2] H. split; [exact H1 | exact H]. Qed.

Lemma wf_del_stream k s :
  wf_state s ->
  wf_state (with_streaming_clients (PyDict.del k (streaming_clients s)) s).
Proof. intros [H1 H2]. split; [exact H1 | now apply dict_wf_del]. Qed.

Lemma wf_with_uploads u s : wf_state s -> wf_state (with_uploads u s).
Proof. intros [H1 H2]. split; assumption. Qed.

Lemma wf_filter {V} (p : string * V -> bool) (d : PyDict.t V) :
  PyDict.wf d -> PyDict.wf (filter p d).
Proof.
  unfold PyDict.wf. induction d as [|[k v] d IH]; simpl; intros Hnd; [constructor|].
  inversion Hnd as [|? ? Hni Hnd']; subst.
  destruct (p (k, v)); simpl; [|auto].
  constructor; [|auto]. intros Hin. apply Hni.
  unfold PyDict.keys in *. apply in_map_iff in Hin as ([k' v'] & E & Hin).
  apply filter_In in Hin as [Hin _]. simpl in E. subst k'.
  change k with (fst (k, v')). now apply in_map.
Qed.

Lemma wf_clean_clients now s : wf_state s -> wf_state (clean_clients now s).
Proof.
  intros [H1 H2]. rewrite clean_clients_eq. split; cbn; now apply wf_filter.
Qed.

Lemma pop_result_keys cmd cl : forall res cl',
  pop_result cmd cl = Some (res, cl') -> PyDict.keys cl' = PyDict.keys cl.
Proof.
  induction cl as [|[k v] cl IH]; simpl; intros res cl'; [discriminate|].
  destruct (PyDict.get cmd (results v)).
  - intros [= <- <-]. reflexivity.
  - destruct (pop_result cmd cl) as [[r rest]|]; [|discriminate].
    intros [= <- <-]. simpl. f_equal. eapply IH. reflexivity.
Qed.

#[local] Hint Resolve wf_on_client wf_set_client wf_set_stream wf_del_stream
  wf_with_uploads wf_clean_clients : wf.

Ltac split_handler :=
  repeat match goal with
         | |- context [match ?x with _ => _ end] => destruct x eqn:?
         end.

(** Every handler keeps the keys of both dictionaries pairwise distinct, so
    the invariant holds in every state the server reaches. *)
Lemma handle_wf pf r s : wf_state s -> wf_state (snd (handle pf r s)).
Proof.
  intros H. destruct r; cbn [handle].
  - unfold register. cbn [snd]. auto with wf.
  - unfold poll. split_handler; cbn [snd]; auto with wf.
  - unfold result. split_handler; cbn [snd]; auto with wf.
  - unfold upload_file. split_handler; cbn [snd]; auto 6 with wf;
      apply wf_with_streaming; auto; repeat apply dict_wf_set; apply H.
  - unfold chat_send. split_handler; cbn [snd]; auto 6 with wf.
  - unfold chat_history. split_handler; cbn [snd]; auto with wf.
  - unfold admin_list. cbn [snd]. auto with wf.
  - unfold admin_command, stream_side_effect. split_handler; cbn [snd]; auto 6 with wf.
  - unfold admin_response. destruct (pop_result cmd (clients s)) as [[res cl]|] eqn:P;
      cbn [snd]; [|assumption].
    destruct H as [H1 H2]. split; [|exact H2].
    unfold PyDict.wf. cbn [clients with_clients].
    rewrite (pop_result_keys _ _ _ _ P). exact H1.
  - unfold admin_download. split_handler; cbn [snd]; auto with wf.
  - unfold admin_stream_frame. split_handler; cbn [snd]; auto with wf.
  - unfold admin_stream_status. split_handler; cbn [snd]; auto with wf.
Qed.

Lemma serve_wf pf rs : forall s, wf_state s -> wf_state (snd (serve pf rs s)).
Proof.
  induction rs as [|r rs IH]; intros s H; simpl; [assumption|].
  pose proof (handle_wf pf r s H) as H1.
  destruct (handle pf r s) as [out s1]. cbn [snd] in H1.
  specialize (IH s1 H1). destruct (serve pf rs s1) as [outs s2]. exact IH.
Qed.

(** ** The scenario of the specification *)

(** Register without an id, enqueue a shell command, poll twice, report the
    result, consume it twice. *)
Example scenario :
  fst (serve plain
         [ReqRegister 0 "a1b2c3d4" (VStr "10.0.0.7") [];
          ReqAdminCommand "c9d8e7f6"
            [("target_id", VStr "a1b2c3d4"); ("type", VStr "shell");
             ("params", VStr "whoami")];
          ReqPoll 1 [("id", VStr "a1b2c3d4")];
          ReqPoll 2 [("id", VStr "a1b2c3d4")];
          ReqResult [("id", VStr "a1b2c3d4"); ("cmd_id", VStr "c9d8e7f6");
                     ("output", VStr "root")];
          ReqAdminResponse "c9d8e7f6";
          ReqAdminResponse "c9d8e7f6"]
         initial_state) =
    [Registered "a1b2c3d4";
     Queued "c9d8e7f6";
     CommandResp (Some {| cmd_id := "c9d8e7f6"; cmd_type := VStr "shell";
                          cmd_params := VStr "whoami" |});
     CommandResp None;
     StatusOk;
     Done (VStr "root");
     Pending].
Proof. reflexivity. Qed.

(** A regular upload by a live session stores the file under the sanitized
    name and records the marker as the command's result. *)
Example upload_scenario :
  let f := [("id", "a1b2c3d4"); ("cmd_id", "c9d8e7f6")] in
  fst (serve plain
         [ReqUpload 1700000000 f (Some ("shot.png", ["x"%byte]));
          ReqAdminResponse "c9d8e7f6";
          ReqAdminDownload "a1b2c3d4_1700000000_shot.png"]
         idle_state) =
    [Uploaded "a1b2c3d4_1700000000_shot.png";
     Done (VStr "FILE_UPLOADED:a1b2c3d4_1700000000_shot.png");
     FileBody ["x"%byte]].
Proof. vm_compute. reflexivity. Qed.

(** ** Refused requests *)

Ltac open_handler :=
  unfold register, poll, result, upload_file, chat_send, chat_history, admin_list,
    admin_command, admin_response, admin_download, admin_stream_frame,
    admin_stream_status.

(** X1.  Whatever the request, an answer with status 404 or 400 leaves the
    whole state as it was: a refused request mutates nothing. *)
Theorem refused_changes_nothing pf r s :
  refused (fst (handle pf r s)) = true -> snd (handle pf r s) = s.
Proof.
  destruct r; cbn [handle]; open_handler; split_handler; cbn [fst snd refused];
    intros Hr; try reflexivity; try discriminate Hr.
Qed.

(** [refused_changes_nothing] on a poll under an unknown id. *)
Lemma refused_changes_nothing_witness :
  snd (handle plain (ReqPoll 5 [("id", VStr "ffffffff")]) busy_state)
    = busy_state.
Proof.
  apply (refused_changes_nothing plain
           (ReqPoll 5 [("id", VStr "ffffffff")]) busy_state).
  reflexivity.
Defined.

(** ** Footprints of the handlers *)

(** A field that an in-place update does not write reads the same in every
    session. *)
Lemma view_on_client {A} (p : client -> A) cid f s k :
  (forall c, p (f c) = p c) ->
  option_map p (session k (on_client cid f s)) = option_map p (session k s).
Proof.
  intros Hf. destruct (String.eqb_spec k cid) as [->|Hne].
  - rewrite session_on_client_eq. destruct (session cid s); simpl; congruence.
  - now rewrite session_on_client_neq.
Qed.

Lemma view_stream_side_effect {A} (p : client -> A) cid ty s k :
  (forall b c, p (set_streaming b c) = p c) ->
  option_map p (session k (stream_side_effect cid ty s)) = option_map p (session k s).
Proof.
  intros Hp. rewrite stream_side_effect_session.
  destruct (String.eqb_spec k cid) as [->|Hne]; [|reflexivity].
  destruct (session cid s); [|reflexivity]. simpl.
  destruct (value_eqb ty (VStr "start_stream")); [now rewrite Hp|].
  destruct (value_eqb ty (VStr "stop_stream")); [now rewrite Hp | reflexivity].
Qed.

Lemma view_pop_result {A} (p : client -> A) cmd cl :
  (forall r c, p (set_results r c) = p c) ->
  forall res cl', pop_result cmd cl = Some (res, cl') ->
  forall k, option_map p (PyDict.get k cl') = option_map p (PyDict.get k cl).
Proof.
  intros Hp. induction cl as [|[k0 v] cl IH]; simpl; intros res cl' H k; [discriminate|].
  destruct (PyDict.get cmd (results v)).
  - injection H as <- <-. simpl. destruct (String.eqb k k0); [simpl; now rewrite Hp | reflexivity].
  - destruct (pop_result cmd cl) as [[r rest]|]; [|discriminate].
    injection H as <- <-. simpl. destruct (String.eqb k k0); [reflexivity|].
    eapply IH. reflexivity.
Qed.

(** What [admin_command] does to a field that neither the streaming flag nor
    the queue update writes. *)
Lemma view_admin_command {A} (p : client -> A) uuid8 data s k :
  (forall b c, p (set_streaming b c) = p c) ->
  (forall q c, p (set_command_queue q c) = p c) ->
  option_map p (session k (snd (admin_command uuid8 data s))) = option_map p (session k s).
Proof.
  intros Hs Hq. unfold admin_command.
  destruct (lookup_client _ _) as [[cid c]|]; [|reflexivity]. cbn [snd].
  rewrite view_on_client by (intros; apply Hq).
  now apply view_stream_side_effect.
Qed.

Lemma view_admin_response {A} (p : client -> A) cmd s k :
  (forall r c, p (set_results r c) = p c) ->
  option_map p (session k (snd (admin_response cmd s))) = option_map p (session k s).
Proof.
  intros Hp. unfold admin_response.
  destruct (pop_result cmd (clients s)) as [[res cl]|] eqn:P; [|reflexivity].
  cbn [snd]. unfold session. cbn [clients with_clients].
  eapply view_pop_result; eauto.
Qed.

Lemma handle_heartbeat pf r s k :
  refreshing r = false -> heartbeat k (snd (handle pf r s)) = heartbeat k s.
Proof.
  destruct r; cbn [refreshing handle]; intros Hr; try discriminate Hr.
  - apply result_heartbeat.
  - apply upload_file_heartbeat.
  - apply chat_send_heartbeat.
  - unfold chat_history. now destruct (PyDict.get _ _).
  - apply (view_admin_command last_seen); reflexivity.
  - apply (view_admin_response last_seen); reflexivity.
  - unfold admin_download. split_handler; reflexivity.
  - unfold admin_stream_frame. split_handler; reflexivity.
  - unfold admin_stream_status. now destruct (PyDict.get _ _).
Qed.

Lemma serve_heartbeat pf rs : forall s k,
  forallb (fun r => negb (refreshing r)) rs = true ->
  heartbeat k (snd (serve pf rs s)) = heartbeat k s.
Proof.
  induction rs as [|r rs IH]; intros s k H; simpl in *; [reflexivity|].
  apply andb_prop in H as [Hr Hrs]. apply negb_true_iff in Hr.
  pose proof (handle_heartbeat pf r s k Hr) as H1.
  destruct (handle pf r s) as [out s1]. cbn [snd] in H1.
  specialize (IH s1 k Hrs). destruct (serve pf rs s1) as [outs s2].
  cbn [snd] in *. congruence.
Qed.

(** X2.  Only register, poll and the sweep of the listing write a heartbeat:
    after any sequence of other requests (results, uploads and frames, chat,
    enqueued commands, consumed results, downloads, stream queries) every
    session's heartbeat is what it was, so a session that does not poll is
    evicted by a listing more than 60 time units after its last poll
    whatever else it did in between. *)
Theorem silent_session_expires pf rs s cid c now seen_at :
  forallb (fun r => negb (refreshing r)) rs = true ->
  session cid s = Some c ->
  now - last_seen c > 60 ->
  let s1 := snd (serve pf rs s) in
  (forall k, heartbeat k s1 = heartbeat k s) /\
  session cid (snd (admin_list now seen_at s1)) = None.
Proof.
  intros Hrs G Hold s1.
  assert (Hb : forall k, heartbeat k s1 = heartbeat k s)
    by (intros k; now apply serve_heartbeat).
  split; [exact Hb|].
  specialize (Hb cid). unfold heartbeat in Hb. rewrite G in Hb.
  destruct (session cid s1) as [c1|] eqn:G1; [|discriminate Hb].
  simpl in Hb. injection Hb as Hb.
  pose proof (session_dead_listed now s1 cid c1 G1 ltac:(lia)) as Hdead.
  unfold admin_list, session. cbn [snd]. rewrite clean_clients_eq. cbn [clients].
  rewrite (get_filter_keys (fun k => negb (listed k (dead_ids now s1)))).
  now rewrite Hdead.
Qed.

(** [silent_session_expires] on a session that reports a result and pushes a
    frame at time 100 without polling. *)
Lemma silent_session_expires_witness :
  let rs := [ReqResult [("id", VStr "a1b2c3d4"); ("cmd_id", VStr "c9d8e7f6");
                        ("output", VStr "root")];
             ReqUpload 100 [("id", "a1b2c3d4"); ("is_stream_frame", "true")]
               (Some ("frame.jpg", ["x"%byte]))] in
  session "a1b2c3d4"
    (snd (admin_list 100 (fun _ => 100) (snd (serve plain rs idle_state)))) = None.
Proof.
  intros rs.
  refine (proj2 (silent_session_expires plain rs idle_state
                   "a1b2c3d4" idle_client 100 (fun _ => 100) _ _ _)); reflexivity.
Defined.

Lemma ids_with_streaming_clients sc s :
  session_ids (with_streaming_clients sc s) = session_ids s.
Proof. reflexivity. Qed.

Lemma ids_with_uploads u s : session_ids (with_uploads u s) = session_ids s.
Proof. reflexivity. Qed.

Lemma ids_stream_side_effect cid ty s :
  session_ids (stream_side_effect cid ty s) = session_ids s.
Proof.
  unfold stream_side_effect. split_handler;
    rewrite ?ids_with_streaming_clients, ?ids_on_client; reflexivity.
Qed.

Lemma handle_ids pf r s :
  structural r = false -> session_ids (snd (handle pf r s)) = session_ids s.
Proof.
  destruct r; cbn [structural handle]; intros Hr; try discriminate Hr.
  - unfold poll. split_handler; cbn [snd]; rewrite ?ids_on_client; reflexivity.
  - unfold result. split_handler; cbn [snd]; rewrite ?ids_on_client; reflexivity.
  - unfold upload_file. split_handler; cbn [snd];
      rewrite ?ids_on_client, ?ids_with_streaming_clients, ?ids_with_uploads; reflexivity.
  - unfold chat_send. split_handler; cbn [snd]; rewrite ?ids_on_client; reflexivity.
  - unfold chat_history. now destruct (PyDict.get _ _).
  - unfold admin_command. destruct (lookup_client _ _) as [[cid c]|]; [|reflexivity].
    cbn [snd]. now rewrite ids_on_client, ids_stream_side_effect.
  - unfold admin_response.
    destruct (pop_result cmd (clients s)) as [[res cl]|] eqn:P; [|reflexivity].
    cbn [snd]. unfold session_ids. cbn [clients with_clients].
    eapply pop_result_keys; eauto.
  - unfold admin_download. split_handler; reflexivity.
  - unfold admin_stream_frame. split_handler; reflexivity.
  - unfold admin_stream_status. now destruct (PyDict.get _ _).
Qed.

(** X3.  Sessions are created by register and removed by the sweep of the
    listing, and by nothing else: after any sequence of other requests the
    registry holds the same session ids in the same order. *)
Theorem sessions_created_and_removed_structurally pf rs : forall s,
  forallb (fun r => negb (structural r)) rs = true ->
  session_ids (snd (serve pf rs s)) = session_ids s.
Proof.
  induction rs as [|r rs IH]; intros s H; simpl in *; [reflexivity|].
  apply andb_prop in H as [Hr Hrs]. apply negb_true_iff in Hr.
  pose proof (handle_ids pf r s Hr) as H1.
  destruct (handle pf r s) as [out s1]. cbn [snd] in H1.
  specialize (IH s1 Hrs). destruct (serve pf rs s1) as [outs s2].
  cbn [snd] in *. congruence.
Qed.

(** [sessions_created_and_removed_structurally] on a command, a chat message
    and a consume addressed to the two-session registry. *)
Lemma sessions_created_and_removed_structurally_witness :
  let rs := [ReqAdminCommand "c9d8e7f6" [("target_id", VStr "e5f6a7b8"); ("type", VStr "stop_stream")];
             ReqChatSend 3 "0badc0de" [("id", VStr "a1b2c3d4"); ("sender", VStr "client")];
             ReqAdminResponse "c9d8e7f6"] in
  session_ids (snd (serve plain rs two_clients)) = ["a1b2c3d4"; "e5f6a7b8"].
Proof.
  intros rs.
  apply (sessions_created_and_removed_structurally plain rs two_clients).
  reflexivity.
Defined.

(** ** Isolation *)

Lemma lookup_client_key v cl cid c :
  lookup_client v cl = Some (cid, c) -> v = VStr cid.
Proof. intros L. now apply lookup_client_Some in L. Qed.

Lemma stream_side_effect_cache_neq cid ty s k :
  k <> cid ->
  PyDict.get k (streaming_clients (stream_side_effect cid ty s)) =
    PyDict.get k (streaming_clients s).
Proof.
  intros Hne. unfold stream_side_effect.
  split_handler; cbn [streaming_clients with_streaming_clients];
    rewrite ?streaming_on_client;
    try rewrite dict_get_set_neq by assumption;
    try rewrite dict_get_del_neq by assumption;
    reflexivity.
Qed.

(** X4.  A request that names a session id (poll, result, upload, chat,
    enqueue) changes at most the session and the stream entry under that id:
    every other session and every other stream entry is left exactly as it
    was, whether the request succeeds or fails. *)
Theorem other_sessions_untouched pf r s v k :
  addressee r = Some v ->
  v <> VStr k ->
  session k (snd (handle pf r s)) = session k s /\
  PyDict.get k (streaming_clients (snd (handle pf r s))) =
    PyDict.get k (streaming_clients s).
Proof.
  intros Ha Hk.
  assert (Hcid : forall cid c, lookup_client v (clients s) = Some (cid, c) -> k <> cid).
  { intros cid c L E. apply lookup_client_key in L. congruence. }
  destruct r; cbn [addressee] in Ha; try discriminate Ha;
    injection Ha as <-; cbn [handle].
  - unfold poll. destruct (lookup_client _ _) as [[cid c]|] eqn:L; [|auto].
    specialize (Hcid cid c eq_refl).
    destruct (command_queue c); cbn [snd];
      repeat rewrite session_on_client_neq by assumption;
      rewrite ?streaming_on_client; auto.
  - unfold result. destruct (lookup_client _ _) as [[cid c]|] eqn:L; [|auto].
    specialize (Hcid cid c eq_refl).
    split_handler; cbn [snd];
      repeat rewrite session_on_client_neq by assumption;
      rewrite ?streaming_on_client; auto.
  - clear Hcid. unfold upload_file.
    destruct (upload_rejected f s); [auto|].
    destruct (fget "id" f) as [|cid]; [auto|].
    assert (Hne : k <> cid) by congruence.
    split_handler; cbn [snd];
      (split;
       [ repeat rewrite session_on_client_neq by assumption; reflexivity
       | rewrite ?streaming_on_client;
         cbn [streaming_clients with_streaming_clients with_uploads];
         repeat rewrite dict_get_set_neq by assumption; reflexivity ]).
  - unfold chat_send. destruct (lookup_client _ _) as [[cid c]|] eqn:L; [|auto].
    specialize (Hcid cid c eq_refl). cbn [snd].
    destruct (value_eqb _ _);
      repeat rewrite session_on_client_neq by assumption;
      rewrite ?streaming_on_client; auto.
  - unfold admin_command. destruct (lookup_client _ _) as [[cid c]|] eqn:L; [|auto].
    specialize (Hcid cid c eq_refl). cbn [snd].
    rewrite session_on_client_neq by assumption. rewrite streaming_on_client.
    rewrite stream_side_effect_cache_neq by assumption.
    rewrite stream_side_effect_session.
    apply String.eqb_neq in Hcid. now rewrite Hcid.
Qed.

(** [other_sessions_untouched] on a stop command addressed to another
    session than the busy one. *)
Lemma other_sessions_untouched_witness :
  let s := {| clients := [("a1b2c3d4", busy_client); ("e5f6a7b8", idle_client)];
              streaming_clients := streaming_clients busy_state; uploads := [] |} in
  let r := ReqAdminCommand "0badc0de" [("target_id", VStr "e5f6a7b8"); ("type", VStr "stop_stream")] in
  session "a1b2c3d4" (snd (handle plain r s)) = Some busy_client /\
  PyDict.get "a1b2c3d4" (streaming_clients (snd (handle plain r s))) =
    Some {| last_frame := Some ["x"%byte]; frame_time := Some 0 |}.
Proof.
  intros s r.
  apply (other_sessions_untouched plain r s (VStr "e5f6a7b8") "a1b2c3d4").
  - reflexivity.
  - discriminate.
Defined.

(** ** Chat logs *)

Lemma chat_of_view k s s' :
  option_map chat_log (session k s') = option_map chat_log (session k s) ->
  chat_of k s' = chat_of k s.
Proof.
  unfold chat_of. destruct (session k s'), (session k s); simpl; congruence.
Qed.

Lemma handle_chat pf r s k :
  structural r = false ->
  exists extra, chat_of k (snd (handle pf r s)) = chat_of k s ++ extra.
Proof.
  destruct r; cbn [structural handle]; intros Hr; try discriminate Hr.
  - exists []. rewrite app_nil_r. apply chat_of_view. unfold poll.
    split_handler; cbn [snd]; rewrite ?(view_on_client chat_log) by reflexivity;
      reflexivity.
  - exists []. rewrite app_nil_r. apply chat_of_view. unfold result.
    split_handler; cbn [snd]; rewrite ?(view_on_client chat_log) by reflexivity;
      reflexivity.
  - exists []. rewrite app_nil_r. apply chat_of_view. unfold upload_file.
    split_handler; cbn [snd]; rewrite ?(view_on_client chat_log) by reflexivity;
      reflexivity.
  - unfold chat_send. destruct (lookup_client _ _) as [[cid c]|] eqn:L;
      [|exists []; now rewrite app_nil_r].
    apply lookup_client_Some in L as (_ & _ & G). cbn [snd].
    destruct (String.eqb_spec k cid) as [->|Hne].
    + exists [{| sender := jget "sender" data; message := jget "message" data;
                 timestamp := now |}].
      unfold chat_of. fold (session cid s) in G.
      destruct (value_eqb _ _); rewrite !session_on_client_eq, G; cbn [option_map];
        unfold chat_log; destruct (chat c) eqn:E; cbn; rewrite ?E; reflexivity.
    + exists []. rewrite app_nil_r. unfold chat_of.
      destruct (value_eqb _ _); repeat rewrite session_on_client_neq by assumption;
        reflexivity.
  - exists []. rewrite app_nil_r. unfold chat_history. now destruct (PyDict.get _ _).
  - exists []. rewrite app_nil_r. apply chat_of_view.
    apply (view_admin_command chat_log); reflexivity.
  - exists []. rewrite app_nil_r. apply chat_of_view.
    apply (view_admin_response chat_log); reflexivity.
  - exists []. rewrite app_nil_r. unfold admin_download. split_handler; reflexivity.
  - exists []. rewrite app_nil_r. unfold admin_stream_frame. split_handler; reflexivity.
  - exists []. rewrite app_nil_r. unfold admin_stream_status. now destruct (PyDict.get _ _).
Qed.

(** X5.  A chat log is append-only: after any sequence of requests other
    than register and the listing, the chat history of every session starts
    with the history it had before, entry for entry. *)
Theorem chat_log_only_grows pf rs : forall s k,
  forallb (fun r => negb (structural r)) rs = true ->
  exists extra,
    fst (chat_history k (snd (serve pf rs s))) = History (chat_of k s ++ extra).
Proof.
  assert (H : forall s k, forallb (fun r => negb (structural r)) rs = true ->
                exists extra, chat_of k (snd (serve pf rs s)) = chat_of k s ++ extra).
  { induction rs as [|r rs IH]; intros s k H; simpl in *.
    - exists []. now rewrite app_nil_r.
    - apply andb_prop in H as [Hr Hrs]. apply negb_true_iff in Hr.
      destruct (handle_chat pf r s k Hr) as [e1 H1].
      destruct (handle pf r s) as [out s1]. cbn [snd] in H1.
      destruct (IH s1 k Hrs) as [e2 H2]. destruct (serve pf rs s1) as [outs s2].
      cbn [snd] in *. exists (e1 ++ e2). rewrite H2, H1. now rewrite app_assoc. }
  intros s k Hrs. destruct (H s k Hrs) as [extra E]. exists extra.
  rewrite <- E. unfold chat_history, chat_of, session.
  now destruct (PyDict.get k (clients _)).
Qed.

(** [chat_log_only_grows] on two messages sent to the busy session. *)
Lemma chat_log_only_grows_witness :
  let rs := [ReqChatSend 3 "0badc0de" [("id", VStr "a1b2c3d4"); ("sender", VStr "client");
                                       ("message", VStr "there?")];
             ReqPoll 4 [("id", VStr "a1b2c3d4")];
             ReqChatSend 5 "0badc0df" [("target_id", VStr "a1b2c3d4"); ("sender", VStr "admin");
                                       ("message", VStr "yes")]] in
  exists extra,
    fst (chat_history "a1b2c3d4" (snd (serve plain rs busy_state))) =
      History ([{| sender := VStr "client"; message := VStr "hi"; timestamp := 0 |}] ++ extra).
Proof.
  intros rs.
  apply (chat_log_only_grows plain rs busy_state "a1b2c3d4").
  reflexivity.
Defined.

(** ** The upload folder *)

Lemma uploads_on_client cid f s : uploads (on_client cid f s) = uploads s.
Proof. unfold on_client. now destruct (PyDict.get cid (clients s)). Qed.

Lemma uploads_stream_side_effect cid ty s :
  uploads (stream_side_effect cid ty s) = uploads s.
Proof.
  unfold stream_side_effect.
  split_handler; cbn [uploads with_streaming_clients]; rewrite ?uploads_on_client;
    reflexivity.
Qed.

Lemma handle_uploads pf r s :
  is_upload r = false -> uploads (snd (handle pf r s)) = uploads s.
Proof.
  destruct r; cbn [is_upload handle]; intros Hr; try discriminate Hr.
  - reflexivity.
  - unfold poll. split_handler; cbn [snd]; rewrite ?uploads_on_client; reflexivity.
  - unfold result. split_handler; cbn [snd]; rewrite ?uploads_on_client; reflexivity.
  - unfold chat_send. split_handler; cbn [snd]; rewrite ?uploads_on_client; reflexivity.
  - unfold chat_history. now destruct (PyDict.get _ _).
  - unfold admin_list. cbn [snd]. now rewrite clean_clients_eq.
  - unfold admin_command. destruct (lookup_client _ _) as [[cid c]|]; [|reflexivity].
    cbn [snd]. now rewrite uploads_on_client, uploads_stream_side_effect.
  - unfold admin_response. now destruct (pop_result _ _) as [[res cl]|].
  - unfold admin_download. split_handler; reflexivity.
  - unfold admin_stream_frame. split_handler; reflexivity.
  - unfold admin_stream_status. now destruct (PyDict.get _ _).
Qed.

Lemma serve_uploads pf rs : forall s,
  forallb (fun r => negb (is_upload r)) rs = true ->
  uploads (snd (serve pf rs s)) = uploads s.
Proof.
  induction rs as [|r rs IH]; intros s H; simpl in *; [reflexivity|].
  apply andb_prop in H as [Hr Hrs]. apply negb_true_iff in Hr.
  pose proof (handle_uploads pf r s Hr) as H1.
  destruct (handle pf r s) as [out s1]. cbn [snd] in H1.
  specialize (IH s1 Hrs). destruct (serve pf rs s1) as [outs s2].
  cbn [snd] in *. congruence.
Qed.

(** X6.  Upload and download round trip: when an upload is answered with a
    stored name that the sanitizer maps to itself, a download of that name
    returns exactly the uploaded bytes, also after any later requests that
    are not uploads, among them the sweep that evicts the uploading
    session. *)
Theorem upload_then_download pf now f file s filename rs :
  fst (upload_file pf now f file s) = Uploaded filename ->
  secure_filename pf filename = filename ->
  forallb (fun r => negb (is_upload r)) rs = true ->
  exists name data,
    file = Some (name, data) /\
    fst (admin_download pf filename
           (snd (serve pf rs (snd (upload_file pf now f file s))))) = FileBody data.
Proof.
  intros Hup Hsf Hrs.
  assert (H : exists name data,
             file = Some (name, data) /\ filename <> "" /\
             PyDict.get filename (uploads (snd (upload_file pf now f file s))) = Some data).
  { unfold upload_file in *.
    destruct (upload_rejected f s); [discriminate Hup|].
    destruct (fget "id" f) as [|cid]; [discriminate Hup|].
    destruct file as [[name data]|]; [|discriminate Hup].
    exists name, data. split; [reflexivity|].
    destruct (String.eqb name ""); [discriminate Hup|].
    destruct (match PyDict.get "is_stream_frame" f with Some v => _ | None => _ end);
      [discriminate Hup|].
    destruct (save_outcome pf _) as [msg|] eqn:Hsave; [discriminate Hup|].
    assert (Hstored : forall fn, save_outcome pf fn = None -> fn <> "")
      by (intros fn Hn ->; discriminate Hn).
    apply Hstored in Hsave.
    destruct (fget "cmd_id" f) as [|c0].
    - injection Hup as <-. split; [exact Hsave|].
      cbn [snd uploads with_uploads]. apply dict_get_set_eq.
    - destruct (truthy (VStr c0)).
      + cbn [clients with_uploads] in *.
        destruct (PyDict.get cid (clients s)); [|discriminate Hup].
        injection Hup as <-. split; [exact Hsave|]. cbn [snd]. rewrite uploads_on_client.
        cbn [uploads with_uploads]. apply dict_get_set_eq.
      + injection Hup as <-. split; [exact Hsave|].
        cbn [snd uploads with_uploads]. apply dict_get_set_eq. }
  destruct H as (name & data & Hf & Hne & Hg). exists name, data. split; [exact Hf|].
  unfold admin_download. rewrite Hsf. apply String.eqb_neq in Hne. rewrite Hne.
  rewrite serve_uploads by assumption. now rewrite Hg.
Qed.

(** [upload_then_download] on a screenshot whose session is evicted before
    the download. *)
Lemma upload_then_download_witness :
  let f := [("id", "a1b2c3d4"); ("cmd_id", "c9d8e7f6")] in
  let file := Some ("shot.png", ["x"%byte]) in
  let s1 := snd (upload_file plain 30 f file idle_state) in
  exists name data,
    file = Some (name, data) /\
    fst (admin_download plain "a1b2c3d4_30_shot.png"
           (snd (serve plain [ReqAdminList 100 (fun _ => 100)] s1))) = FileBody data.
Proof.
  intros f file s1.
  apply (upload_then_download plain 30 f file idle_state
           "a1b2c3d4_30_shot.png" [ReqAdminList 100 (fun _ => 100)]); reflexivity.
Defined.



(** ** More on the sweep *)

Lemma listed_dead_inv now s k :
  listed k (dead_ids now s) = true ->
  exists c, In (k, c) (clients s) /\ is_dead now (k, c) = true.
Proof.
  unfold listed, dead_ids. intros H.
  apply existsb_exists in H as (k' & Hin & E). apply String.eqb_eq in E. subst k'.
  apply in_map_iff in Hin as ([k' c] & E & Hin). simpl in E. subst k'.
  apply filter_In in Hin as [Hin Hd]. eauto.
Qed.

(** With distinct keys, a key is deleted exactly when its own session is
    dead. *)
Lemma listed_dead_wf now s k c :
  PyDict.wf (clients s) -> In (k, c) (clients s) ->
  listed k (dead_ids now s) = is_dead now (k, c).
Proof.
  intros Hwf Hin. destruct (is_dead now (k, c)) eqn:D.
  - unfold listed, dead_ids. apply existsb_exists. exists k.
    split; [|apply String.eqb_refl].
    change k with (fst (k, c)). apply in_map. now apply filter_In.
  - destruct (listed k (dead_ids now s)) eqn:L; [|reflexivity].
    apply listed_dead_inv in L as (c' & Hin' & D').
    pose proof (dict_in_get_wf _ _ _ Hwf Hin) as G.
    pose proof (dict_in_get_wf _ _ _ Hwf Hin') as G'.
    assert (c' = c) by congruence. subst c'.
    unfold is_dead in *. simpl in *. congruence.
Qed.




Lemma fresh_session_survives now s cid c :
  PyDict.wf (clients s) ->
  session cid s = Some c ->
  now - last_seen c <= 60 ->
  session cid (clean_clients now s) = Some c /\
  PyDict.get cid (streaming_clients (clean_clients now s)) =
    PyDict.get cid (streaming_clients s).
Proof.
  intros Hwf G Hle.
  assert (L : listed cid (dead_ids now s) = false).
  { rewrite (listed_dead_wf now s cid c Hwf) by (now apply dict_get_Some_in).
    unfold is_dead. simpl. rewrite Z.gtb_ltb. apply Z.ltb_ge. lia. }
  unfold session. rewrite clean_clients_eq.
  cbn [clients streaming_clients].
  rewrite !(get_filter_keys (fun k => negb (listed k (dead_ids now s)))), L.
  split; [exact G | reflexivity].
Qed.

Lemma dead_session_gone now s cid c :
  session cid s = Some c ->
  now - last_seen c > 60 ->
  session cid (clean_clients now s) = None.
Proof.
  intros G Hold.
  pose proof (session_dead_listed now s cid c G Hold) as Hdead.
  unfold session. rewrite clean_clients_eq. cbn [clients].
  rewrite (get_filter_keys (fun k => negb (listed k (dead_ids now s)))).
  now rewrite Hdead.
Qed.

(** X9.  A session whose idle time is at most 60 (60 included) survives the
    listing with everything it holds, queue, results, chat, flag and stream
    entry. *)
Theorem sweep_keeps_fresh_sessions now seen_at s cid c :
  PyDict.wf (clients s) ->
  session cid s = Some c ->
  now - last_seen c <= 60 ->
  session cid (snd (admin_list now seen_at s)) = Some c /\
  PyDict.get cid (streaming_clients (snd (admin_list now seen_at s))) =
    PyDict.get cid (streaming_clients s).
Proof.
  intros Hwf G Hle. unfold admin_list. cbn [snd].
  now apply fresh_session_survives.
Qed.

(** [sweep_keeps_fresh_sessions] on the busy session, listed at time 60. *)
Lemma sweep_keeps_fresh_sessions_witness :
  session "a1b2c3d4" (snd (admin_list 60 (fun _ => 60) busy_state)) = Some busy_client /\
  PyDict.get "a1b2c3d4" (streaming_clients (snd (admin_list 60 (fun _ => 60) busy_state))) =
    PyDict.get "a1b2c3d4" (streaming_clients busy_state).
Proof.
  apply (sweep_keeps_fresh_sessions 60 (fun _ => 60) busy_state "a1b2c3d4" busy_client).
  - repeat constructor; simpl; tauto.
  - reflexivity.
  - discriminate.
Defined.

Lemma dead_ids_clean now s : dead_ids now (clean_clients now s) = [].
Proof.
  rewrite clean_clients_eq. unfold dead_ids at 1. cbn [clients].
  rewrite filter_twice.
  assert (E : forall e : string * client, In e (clients s) ->
            negb (listed (fst e) (dead_ids now s)) && is_dead now e = false).
  { intros [k c] Hin. simpl. destruct (is_dead now (k, c)) eqn:D; [|apply andb_false_r].
    assert (L : listed k (dead_ids now s) = true).
    { unfold listed, dead_ids. apply existsb_exists. exists k.
      split; [|apply String.eqb_refl].
      change k with (fst (k, c)). apply in_map. now apply filter_In. }
    now rewrite L. }
  induction (clients s) as [|e cl IH]; [reflexivity|]. simpl.
  rewrite (E e) by now left. apply IH. intros e' Hin. apply E. now right.
Qed.

(** X10.  The sweep is idempotent: a second listing at the same instant
    evicts nothing more and returns the same answer. *)
Theorem listing_twice now seen_at s :
  admin_list now seen_at (snd (admin_list now seen_at s)) =
    (fst (admin_list now seen_at s), snd (admin_list now seen_at s)).
Proof.
  unfold admin_list. cbn [fst snd].
  assert (E : clean_clients now (clean_clients now s) = clean_clients now s).
  { unfold clean_clients at 1. fold (dead_ids now (clean_clients now s)).
    now rewrite dead_ids_clean. }
  now rewrite E.
Qed.

(** X11.  A stream entry under an id that has no session, such as the frames
    pushed under ["ADMIN"], is never evicted: the listing leaves it in place
    and the frame is served as before. *)
Theorem sweep_skips_unowned_frames now seen_at s cid :
  session cid s = None ->
  PyDict.get cid (streaming_clients (snd (admin_list now seen_at s))) =
    PyDict.get cid (streaming_clients s) /\
  fst (admin_stream_frame cid (snd (admin_list now seen_at s))) = fst (admin_stream_frame cid s).
Proof.
  intros G.
  assert (L : listed cid (dead_ids now s) = false).
  { destruct (listed cid (dead_ids now s)) eqn:L; [|reflexivity].
    apply listed_dead_inv in L as (c & Hin & _).
    apply dict_get_None_notin in G. exfalso. apply G.
    change cid with (fst (cid, c)). now apply in_map. }
  assert (E : PyDict.get cid (streaming_clients (snd (admin_list now seen_at s))) =
              PyDict.get cid (streaming_clients s)).
  { unfold admin_list. cbn [snd]. rewrite clean_clients_eq. cbn [streaming_clients].
    rewrite (get_filter_keys (fun k => negb (listed k (dead_ids now s)))), L.
    reflexivity. }
  split; [exact E|]. unfold admin_stream_frame. rewrite E.
  destruct (PyDict.get cid (streaming_clients s)) as [e|]; [|reflexivity].
  now destruct (last_frame e) as [[|b fr]|].
Qed.

(** [sweep_skips_unowned_frames] on a frame pushed under ["ADMIN"] at time
    0 and read after a listing at time 1000. *)
Lemma sweep_skips_unowned_frames_witness :
  let s := snd (upload_file plain 0
                  [("id", "ADMIN"); ("is_stream_frame", "true")]
                  (Some ("frame.jpg", ["x"%byte])) idle_state) in
  fst (admin_stream_frame "ADMIN" (snd (admin_list 1000 (fun _ => 1000) s))) = Frame ["x"%byte].
Proof.
  intros s.
  refine (proj2 (sweep_skips_unowned_frames 1000 (fun _ => 1000) s "ADMIN" _)). reflexivity.
Defined.

(** X12.  Results die with their session: once the listing has evicted a
    session, a consume of a command id that only it held answers pending. *)
Theorem results_lost_on_eviction now seen_at s cid c cmd :
  PyDict.wf (clients s) ->
  session cid s = Some c ->
  now - last_seen c > 60 ->
  only_holder cid cmd s ->
  admin_response cmd (snd (admin_list now seen_at s)) = (Pending, snd (admin_list now seen_at s)).
Proof.
  intros Hwf G Hold Hiso.
  pose proof (session_dead_listed now s cid c G Hold) as Hdead.
  unfold admin_response. rewrite pop_result_none; [reflexivity|].
  unfold admin_list. cbn [snd]. rewrite clean_clients_eq. cbn [clients].
  apply Forall_forall. intros [k v] Hin. apply filter_In in Hin as [Hin Hk].
  simpl in *. apply (Hiso k v).
  - intros ->. now rewrite Hdead in Hk.
  - now apply dict_in_get_wf.
Qed.

(** [results_lost_on_eviction] on the stored result of the busy session. *)
Lemma results_lost_on_eviction_witness :
  fst (admin_response "0badc0de" busy_state) = Done (VStr "root") /\
  fst (admin_response "0badc0de" (snd (admin_list 61 (fun _ => 61) busy_state))) = Pending.
Proof.
  split; [reflexivity|].
  rewrite (results_lost_on_eviction 61 (fun _ => 61) busy_state "a1b2c3d4" busy_client "0badc0de").
  - reflexivity.
  - repeat constructor; simpl; tauto.
  - reflexivity.
  - reflexivity.
  - intros k c Hk. unfold session. simpl.
    destruct (String.eqb_spec k "a1b2c3d4"); [contradiction | discriminate].
Defined.

(** ** Ownership of stream entries *)

Lemma mem_set {V} k k' (v : V) d :
  PyDict.mem k (PyDict.set k' v d) = String.eqb k k' || PyDict.mem k d.
Proof.
  unfold PyDict.mem. destruct (String.eqb_spec k k') as [->|Hne].
  - now rewrite dict_get_set_eq.
  - now rewrite dict_get_set_neq.
Qed.

Lemma mem_del {V} k k' (d : PyDict.t V) :
  PyDict.mem k (PyDict.del k' d) = negb (String.eqb k k') && PyDict.mem k d.
Proof.
  unfold PyDict.mem. destruct (String.eqb_spec k k') as [->|Hne].
  - now rewrite dict_get_del_eq.
  - now rewrite dict_get_del_neq.
Qed.

Lemma mem_filter_keys {V} (p : string -> bool) k (d : PyDict.t V) :
  PyDict.mem k (filter (fun e => p (fst e)) d) = p k && PyDict.mem k d.
Proof. unfold PyDict.mem. rewrite get_filter_keys. now destruct (p k). Qed.

Lemma mem_keys {V} k (d : PyDict.t V) : PyDict.mem k d = listed k (PyDict.keys d).
Proof.
  unfold PyDict.mem, listed. induction d as [|[k' v] d IH]; simpl; [reflexivity|].
  destruct (String.eqb k k'); [reflexivity | exact IH].
Qed.

Lemma handle_mem_clients pf r s k :
  structural r = false ->
  PyDict.mem k (clients (snd (handle pf r s))) = PyDict.mem k (clients s).
Proof.
  intros Hr. rewrite !mem_keys.
  change (listed k (session_ids (snd (handle pf r s))) = listed k (session_ids s)).
  now rewrite handle_ids.
Qed.

Lemma lookup_client_mem v cl cid c :
  lookup_client v cl = Some (cid, c) -> PyDict.mem cid cl = true.
Proof.
  intros L. apply lookup_client_Some in L as (_ & _ & G).
  unfold PyDict.mem. now rewrite G.
Qed.

(** A handler other than register and the listing adds a stream entry only
    under ["ADMIN"] or under the id of a session. *)
Lemma handle_stream_keys pf r s k :
  structural r = false ->
  PyDict.mem k (streaming_clients (snd (handle pf r s))) = true ->
  PyDict.mem k (streaming_clients s) = true \/ k = "ADMIN" \/
  PyDict.mem k (clients s) = true.
Proof.
  destruct r; cbn [structural handle]; intros Hr; try discriminate Hr.
  - unfold poll. split_handler; cbn [snd]; rewrite ?streaming_on_client; auto.
  - unfold result. split_handler; cbn [snd]; rewrite ?streaming_on_client; auto.
  - unfold upload_file. destruct (upload_rejected f s) eqn:Hok; [auto|].
    destruct (fget "id" f) as [|cid] eqn:Hid; [auto|].
    assert (Hcid : cid = "ADMIN" \/ PyDict.mem cid (clients s) = true).
    { apply upload_rejected_false in Hok as (cid' & E & [->|[_ Hs]]).
      - left. congruence.
      - right. assert (cid' = cid) by congruence. subst cid'.
        unfold session in Hs. unfold PyDict.mem.
        now destruct (PyDict.get cid (clients s)). }
    split_handler; cbn [snd]; rewrite ?streaming_on_client;
      cbn [streaming_clients with_streaming_clients with_uploads]; auto;
      rewrite ?mem_set; intros H;
      repeat (apply orb_prop in H as [H|H]); auto;
      apply String.eqb_eq in H; subst k; destruct Hcid; auto.
  - unfold chat_send. split_handler; cbn [snd]; rewrite ?streaming_on_client; auto.
  - unfold chat_history. destruct (PyDict.get _ _); auto.
  - unfold admin_command. destruct (lookup_client _ _) as [[cid c]|] eqn:L; [|auto].
    apply lookup_client_mem in L. cbn [snd]. rewrite streaming_on_client.
    unfold stream_side_effect. split_handler;
      cbn [streaming_clients with_streaming_clients]; rewrite ?streaming_on_client; auto.
    + rewrite mem_set. intros H. apply orb_prop in H as [H|H]; auto.
      apply String.eqb_eq in H. subst k. auto.
    + rewrite mem_del. intros H. apply andb_prop in H as [_ H]. auto.
  - unfold admin_response. destruct (pop_result _ _) as [[res cl]|]; auto.
  - unfold admin_download. split_handler; auto.
  - unfold admin_stream_frame. split_handler; auto.
  - unfold admin_stream_status. destruct (PyDict.get _ _); auto.
Qed.

Lemma handle_owned pf r s :
  stream_entries_owned s -> stream_entries_owned (snd (handle pf r s)).
Proof.
  intros Hown k Hk. destruct (structural r) eqn:Hr.
  - destruct r; try discriminate Hr; cbn [handle] in *.
    + unfold register in *. cbn [snd clients streaming_clients with_clients] in *.
      destruct (Hown k Hk) as [?|H]; [now left|]. right.
      rewrite mem_set, H. apply orb_true_r.
    + unfold admin_list in *. cbn [snd] in *. rewrite clean_clients_eq in *.
      cbn [clients streaming_clients] in *.
      rewrite (@mem_filter_keys stream_entry
                 (fun k => negb (listed k (dead_ids now s)))) in Hk.
      rewrite (@mem_filter_keys client (fun k => negb (listed k (dead_ids now s)))).
      apply andb_prop in Hk as [Hl Hk]. rewrite Hl.
      destruct (Hown k Hk) as [?|H]; [now left | right; now rewrite H].
  - rewrite handle_mem_clients by assumption.
    destruct (handle_stream_keys pf r s k Hr Hk) as [H|[H|H]]; auto.
Qed.

(** X13.  In every state the server reaches from its start, each stream
    entry belongs to a registered session or to the ["ADMIN"] id: evicting a
    session never leaves its frame behind, and no request creates a frame
    slot for an id that was never registered. *)
Theorem stream_entries_always_owned pf rs :
  stream_entries_owned (snd (serve pf rs initial_state)).
Proof.
  assert (H : forall s, stream_entries_owned s ->
                        stream_entries_owned (snd (serve pf rs s))).
  { induction rs as [|r rs IH]; intros s Hs; simpl; [assumption|].
    pose proof (handle_owned pf r s Hs) as H1.
    destruct (handle pf r s) as [out s1]. cbn [snd] in H1.
    specialize (IH s1 H1). destruct (serve pf rs s1) as [outs s2]. exact IH. }
  apply H. intros k Hk. discriminate Hk.
Qed.

(** ** More on the result store *)

Lemma pop_result_Some cmd cl : forall res cl',
  pop_result cmd cl = Some (res, cl') ->
  exists pre cid c post,
    cl = pre ++ (cid, c) :: post /\
    Forall (fun e : string * client => holds cmd (snd e) = false) pre /\
    PyDict.get cmd (results c) = Some res /\
    cl' = pre ++ (cid, set_results (PyDict.del cmd (results c)) c) :: post.
Proof.
  induction cl as [|[k v] cl IH]; simpl; intros res cl' H; [discriminate|].
  destruct (PyDict.get cmd (results v)) as [r|] eqn:G.
  - injection H as <- <-. exists [], k, v, cl. repeat split; auto.
  - destruct (pop_result cmd cl) as [[r rest]|]; [|discriminate].
    injection H as <- <-.
    destruct (IH r rest eq_refl) as (pre & cid & c & post & -> & Hpre & Hc & ->).
    exists ((k, v) :: pre), cid, c, post. repeat split; auto.
    constructor; [|assumption]. unfold holds, PyDict.mem. simpl. now rewrite G.
Qed.

Lemma pop_result_None cmd cl :
  pop_result cmd cl = None ->
  Forall (fun e : string * client => holds cmd (snd e) = false) cl.
Proof.
  induction cl as [|[k v] cl IH]; simpl; intros H; [constructor|].
  destruct (PyDict.get cmd (results v)) as [r|] eqn:G; [discriminate|].
  destruct (pop_result cmd cl) as [[r rest]|]; [discriminate|].
  constructor; [|auto]. unfold holds, PyDict.mem. simpl. now rewrite G.
Qed.

(** X14.  A consume serves the first session, in registration order, that
    holds a result under the command id: it returns that session's payload
    and removes that entry, leaving every other session, and the results of
    the same id held by later sessions, in place; it answers pending, and
    changes nothing, exactly when no session holds the id. *)
Theorem consume_serves_first_holder cmd s :
  match fst (admin_response cmd s) with
  | Done res =>
      exists pre cid c post,
        clients s = pre ++ (cid, c) :: post /\
        Forall (fun e : string * client => holds cmd (snd e) = false) pre /\
        PyDict.get cmd (results c) = Some res /\
        clients (snd (admin_response cmd s)) =
          pre ++ (cid, set_results (PyDict.del cmd (results c)) c) :: post /\
        holds cmd (set_results (PyDict.del cmd (results c)) c) = false
  | Pending =>
      Forall (fun e : string * client => holds cmd (snd e) = false) (clients s) /\
      snd (admin_response cmd s) = s
  | _ => False
  end.
Proof.
  unfold admin_response. destruct (pop_result cmd (clients s)) as [[res cl]|] eqn:P;
    cbn [fst snd].
  - destruct (pop_result_Some _ _ _ _ P) as (pre & cid & c & post & E & Hpre & Hc & ->).
    exists pre, cid, c, post. repeat split; auto.
    unfold holds, PyDict.mem. cbn [results set_results]. now rewrite dict_get_del_eq.
  - split; [now apply pop_result_None | reflexivity].
Qed.

(** X15.  The result store is independent of the rest of a session: a
    report, an upload and a consume leave the address, heartbeat, command
    queue, streaming flag and chat log of every session as they were. *)
Theorem result_traffic_touches_results_only pf now data f file cmd s k :
  let rest c := (ip c, last_seen c, command_queue c, streaming c, chat c) in
  option_map rest (session k (snd (result data s))) = option_map rest (session k s) /\
  option_map rest (session k (snd (upload_file pf now f file s)))
    = option_map rest (session k s) /\
  option_map rest (session k (snd (admin_response cmd s))) = option_map rest (session k s).
Proof.
  intros rest. repeat apply conj.
  - unfold result. split_handler; cbn [snd];
      rewrite ?(view_on_client rest) by reflexivity; reflexivity.
  - unfold upload_file. split_handler; cbn [snd];
      rewrite ?(view_on_client rest) by reflexivity; reflexivity.
  - apply (view_admin_response rest). reflexivity.
Qed.

(** ** More on the command queue *)

(** X16.  Any interleaving of enqueues and polls addressed to a live session
    behaves as a first-in first-out queue: every poll returns the oldest
    command not yet delivered, or none when all have been delivered, and the
    queue left at the end is the undelivered suffix. *)
Theorem interleaved_fifo cid c ops s :
  cid <> "" ->
  session cid s = Some c ->
  Forall (addresses cid) ops ->
  fst (run_ops ops s) = fst (fifo_spec ops (queue cid s)) /\
  queue cid (snd (run_ops ops s)) = snd (fifo_spec ops (queue cid s)).
Proof.
  intros Hne G Hall.
  destruct (run_ops_fifo cid ops s Hne) as (H1 & H2 & _); [congruence | assumption |].
  split; assumption.
Qed.

(** [interleaved_fifo] on enqueue, poll, enqueue, poll, poll. *)
Lemma interleaved_fifo_witness :
  let shell := [("target_id", VStr "a1b2c3d4"); ("type", VStr "shell"); ("params", VStr "id")] in
  let me := [("id", VStr "a1b2c3d4")] in
  let ops := [Enqueue "c9d8e7f6" shell; Poll 1 me; Enqueue "0badc0de" shell;
              Poll 2 me; Poll 3 me] in
  fst (run_ops ops idle_state) =
    [Queued "c9d8e7f6";
     CommandResp (Some {| cmd_id := "c9d8e7f6"; cmd_type := VStr "shell";
                          cmd_params := VStr "id" |});
     Queued "0badc0de";
     CommandResp (Some {| cmd_id := "0badc0de"; cmd_type := VStr "shell";
                          cmd_params := VStr "id" |});
     CommandResp None].
Proof.
  intros shell me ops.
  refine (proj1 (interleaved_fifo "a1b2c3d4" idle_client ops idle_state _ _ _)).
  - discriminate.
  - reflexivity.
  - repeat constructor.
Defined.

(** ** Stopping a stream *)

Lemma admin_command_cache uuid8 data s cid c :
  lookup_client (jget "target_id" data) (clients s) = Some (cid, c) ->
  PyDict.get cid (streaming_clients (snd (admin_command uuid8 data s))) =
    if value_eqb (jget "type" data) (VStr "start_stream") then
      Some (match PyDict.get cid (streaming_clients s) with
            | Some e => e
            | None => empty_entry
            end)
    else if value_eqb (jget "type" data) (VStr "stop_stream") then None
    else PyDict.get cid (streaming_clients s).
Proof.
  intros L. rewrite (admin_command_unfold _ _ _ _ _ L). cbn [snd].
  rewrite streaming_on_client. apply stream_side_effect_cache.
Qed.

Lemma has_frame_served cid s :
  has_frame cid s = false <->
  fst (admin_stream_frame cid s) = Error 404 "No frame available".
Proof.
  unfold has_frame, admin_stream_frame.
  destruct (PyDict.get cid (streaming_clients s)) as [e|]; [|tauto].
  destruct (last_frame e) as [[|b fr]|]; cbn [fst]; split; intros H;
    try reflexivity; discriminate H.
Qed.

Lemma has_frame_same cid s s' :
  PyDict.get cid (streaming_clients s') = PyDict.get cid (streaming_clients s) ->
  has_frame cid s' = has_frame cid s.
Proof. intros E. unfold has_frame. now rewrite E. Qed.

(** A request that pushes no frame under [cid] does not make one appear. *)
Lemma handle_has_frame pf cid r s :
  pushes_frame cid r = false ->
  has_frame cid s = false ->
  has_frame cid (snd (handle pf r s)) = false.
Proof.
  intros Hr Hno.
  assert (Same : forall s', PyDict.get cid (streaming_clients s')
                            = PyDict.get cid (streaming_clients s) ->
                            has_frame cid s' = false)
    by (intros s' E; now rewrite (has_frame_same cid s s' E)).
  destruct r; cbn [handle pushes_frame] in *.
  - apply Same. reflexivity.
  - apply Same. unfold poll. split_handler; cbn [snd]; now rewrite ?streaming_on_client.
  - apply Same. unfold result. split_handler; cbn [snd]; now rewrite ?streaming_on_client.
  - apply Same. unfold upload_file.
    destruct (upload_rejected f s); [reflexivity|].
    destruct (fget "id" f) as [|cid'] eqn:Hid; [reflexivity|].
    destruct file as [[name data]|]; [|reflexivity].
    destruct (String.eqb name ""); [reflexivity|].
    fold (is_frame_upload f). destruct (is_frame_upload f) eqn:Hf.
    + cbn [andb value_eqb] in Hr. apply String.eqb_neq in Hr.
      cbn [snd streaming_clients with_streaming_clients].
      rewrite dict_get_set_neq by congruence.
      destruct (negb _); [now rewrite dict_get_set_neq by congruence | reflexivity].
    + split_handler; cbn [snd]; now rewrite ?streaming_on_client.
  - apply Same. unfold chat_send. split_handler; cbn [snd];
      now rewrite ?streaming_on_client.
  - apply Same. unfold chat_history. split_handler; reflexivity.
  - unfold admin_list. cbn [snd]. rewrite clean_clients_eq.
    unfold has_frame in *. cbn [streaming_clients].
    rewrite (get_filter_keys (fun k => negb (listed k (dead_ids now s)))).
    now destruct (negb _).
  - unfold admin_command. destruct (lookup_client _ _) as [[cid' c]|] eqn:L;
      [|exact Hno].
    cbn [snd]. destruct (String.eqb_spec cid cid') as [<-|Hne].
    + unfold has_frame in *. rewrite streaming_on_client, stream_side_effect_cache.
      destruct (value_eqb _ (VStr "start_stream")).
      * now destruct (PyDict.get cid (streaming_clients s)).
      * now destruct (value_eqb _ (VStr "stop_stream")).
    + apply Same. rewrite streaming_on_client.
      now apply stream_side_effect_cache_neq.
  - apply Same. unfold admin_response. now destruct (pop_result _ _) as [[res cl]|].
  - apply Same. unfold admin_download. split_handler; reflexivity.
  - apply Same. unfold admin_stream_frame. split_handler; reflexivity.
  - apply Same. unfold admin_stream_status. split_handler; reflexivity.
Qed.

Lemma serve_has_frame pf cid rs : forall s,
  forallb (fun r => negb (pushes_frame cid r)) rs = true ->
  has_frame cid s = false ->
  has_frame cid (snd (serve pf rs s)) = false.
Proof.
  induction rs as [|r rs IH]; intros s H Hno; simpl in *; [assumption|].
  apply andb_prop in H as [Hr Hrs]. apply negb_true_iff in Hr.
  pose proof (handle_has_frame pf cid r s Hr Hno) as H1.
  destruct (handle pf r s) as [out s1]. cbn [snd] in H1.
  specialize (IH s1 Hrs H1). destruct (serve pf rs s1) as [outs s2]. exact IH.
Qed.

(** X17.  A stop command discards the cached frame for good: after a
    [stop_stream] command on a live session no frame is served under its id,
    and none is served after any later run of requests that pushes no frame
    under that id, whatever else the run holds (start commands, listings,
    registrations, frames of other sessions).  A frame served after a stop
    was therefore pushed after it. *)
Theorem stopped_stream_serves_no_frame pf uuid8 stop s cid c rs :
  cid <> "" ->
  session cid s = Some c ->
  jget "target_id" stop = VStr cid ->
  jget "type" stop = VStr "stop_stream" ->
  forallb (fun r => negb (pushes_frame cid r)) rs = true ->
  let s1 := snd (admin_command uuid8 stop s) in
  fst (admin_stream_frame cid s1) = Error 404 "No frame available" /\
  fst (admin_stream_frame cid (snd (serve pf rs s1))) = Error 404 "No frame available".
Proof.
  intros Hne G T Ty Hrs s1.
  assert (L : lookup_client (jget "target_id" stop) (clients s) = Some (cid, c))
    by (apply lookup_client_Some; auto).
  pose proof (admin_command_cache uuid8 stop s cid c L) as C1.
  rewrite Ty in C1. cbn in C1. fold s1 in C1.
  assert (Hno : has_frame cid s1 = false) by (unfold has_frame; now rewrite C1).
  split; apply has_frame_served; [exact Hno|].
  now apply serve_has_frame.
Qed.

(** [stopped_stream_serves_no_frame] on the busy session and its cached
    frame: a stop, then a start, a poll and a frame pushed by another
    session. *)
Lemma stopped_stream_serves_no_frame_witness :
  let stop := [("target_id", VStr "a1b2c3d4"); ("type", VStr "stop_stream")] in
  let start := [("target_id", VStr "a1b2c3d4"); ("type", VStr "start_stream")] in
  let rs := [ReqAdminCommand "0badc0df" start;
             ReqPoll 5 [("id", VStr "a1b2c3d4")];
             ReqUpload 6 [("id", "ADMIN"); ("is_stream_frame", "true")]
               (Some ("frame.jpg", ["y"%byte]))] in
  let s1 := snd (admin_command "0badc0de" stop busy_state) in
  fst (admin_stream_frame "a1b2c3d4" busy_state) = Frame ["x"%byte] /\
  fst (admin_stream_frame "a1b2c3d4" (snd (serve plain rs s1)))
    = Error 404 "No frame available".
Proof.
  intros stop start rs s1. split; [reflexivity|].
  refine (proj2 (stopped_stream_serves_no_frame plain "0badc0de" stop busy_state
                   "a1b2c3d4" busy_client rs _ _ _ _ _)); try reflexivity.
  discriminate.
Defined.

(** ** Keeping alive and coming back *)

(** X18.  Polling keeps a session alive: a session that polled at time [t]
    is still registered, and listed, after a listing at any time up to
    [t + 60], whatever its heartbeat was before the poll. *)
Theorem poll_keeps_alive t now seen_at data s cid c :
  PyDict.wf (clients s) ->
  cid <> "" ->
  session cid s = Some c ->
  jget "id" data = VStr cid ->
  now - t <= 60 ->
  let s1 := snd (poll t data s) in
  heartbeat cid (snd (admin_list now seen_at s1)) = Some t /\
  In cid (listed_ids (fst (admin_list now seen_at s1))).
Proof.
  intros Hwf Hne G Hid Hle s1.
  assert (L : lookup_client (jget "id" data) (clients s) = Some (cid, c))
    by (apply lookup_client_Some; auto).
  assert (Hwf1 : PyDict.wf (clients s1)).
  { pose proof (handle_ids plain (ReqPoll t data) s eq_refl) as E.
    cbn [handle] in E. fold s1 in E.
    unfold PyDict.wf. fold (session_ids s1). rewrite E. exact Hwf. }
  assert (Hb : heartbeat cid s1 = Some t).
  { subst s1. unfold poll. rewrite L. unfold heartbeat.
    destruct (command_queue c); cbn [snd]; rewrite !session_on_client_eq, G; reflexivity. }
  unfold heartbeat in Hb. destruct (session cid s1) as [c1|] eqn:G1; [|discriminate Hb].
  simpl in Hb. injection Hb as Hb.
  destruct (fresh_session_survives now s1 cid c1 Hwf1 G1 ltac:(lia)) as [Hs _].
  unfold admin_list. cbn [fst snd listed_ids]. split.
  - unfold heartbeat. rewrite Hs. simpl. now rewrite Hb.
  - rewrite map_map. cbn [fst].
    apply dict_get_Some_in in Hs. change cid with (fst (cid, c1)).
    now apply in_map.
Qed.

(** [poll_keeps_alive] on a session last seen at 0 that polls at 100 and is
    listed at 160. *)
Lemma poll_keeps_alive_witness :
  let s1 := snd (poll 100 [("id", VStr "a1b2c3d4")] busy_state) in
  heartbeat "a1b2c3d4" (snd (admin_list 160 (fun _ => 160) s1)) = Some 100 /\
  In "a1b2c3d4" (listed_ids (fst (admin_list 160 (fun _ => 160) s1))).
Proof.
  apply (poll_keeps_alive 100 160 (fun _ => 160) [("id", VStr "a1b2c3d4")] busy_state
           "a1b2c3d4" busy_client).
  - repeat constructor; simpl; tauto.
  - discriminate.
  - reflexivity.
  - reflexivity.
  - discriminate.
Defined.

(** X19.  An evicted agent does not get its identity back: when it registers
    again under its old id after the listing has removed it, it is given the
    freshly generated token, with an empty session. *)
Theorem evicted_agent_gets_new_id now seen_at t uuid8 addr data s cid c :
  session cid s = Some c ->
  now - last_seen c > 60 ->
  jget "id" data = VStr cid ->
  let s1 := snd (admin_list now seen_at s) in
  fst (register t uuid8 addr data s1) = Registered uuid8 /\
  session uuid8 (snd (register t uuid8 addr data s1)) =
    Some (new_client (jget_default "public_ip" addr data) t) /\
  (uuid8 <> cid -> session cid (snd (register t uuid8 addr data s1)) = None).
Proof.
  intros G Hold Hid s1.
  assert (Hs : session cid s1 = None)
    by (subst s1; unfold admin_list; cbn [snd]; now apply (dead_session_gone now s cid c)).
  assert (L : lookup_client (jget "id" data) (clients s1) = None).
  { rewrite Hid. unfold lookup_client. destruct (String.eqb cid ""); [reflexivity|].
    unfold session in Hs. now rewrite Hs. }
  unfold register. rewrite L. cbn [fst snd]. unfold session.
  cbn [clients with_clients]. repeat split.
  - apply dict_get_set_eq.
  - intros Hne. rewrite dict_get_set_neq by congruence. exact Hs.
Qed.

(** [evicted_agent_gets_new_id] on the busy session, evicted at time 61. *)
Lemma evicted_agent_gets_new_id_witness :
  fst (register 62 "ffffffff" (VStr "10.0.0.7") [("id", VStr "a1b2c3d4")]
         (snd (admin_list 61 (fun _ => 61) busy_state))) = Registered "ffffffff".
Proof.
  refine (proj1 (evicted_agent_gets_new_id 61 (fun _ => 61) 62 "ffffffff" (VStr "10.0.0.7")
                   [("id", VStr "a1b2c3d4")] busy_state "a1b2c3d4" busy_client _ _ _));
    reflexivity.
Defined.


